(** * mountpoint(1): a shallow embedding of sys-utils/mountpoint.c

    The program stats one path, asks libmount (or, when the mount table is
    not readable, the parent directory) whether the path is a mount
    boundary, prints a line and leaves with one of three exit codes.

    The development follows the C file top to bottom: the data the code
    works on, the environment it queries (file system, libmount, libc),
    a small trace monad for the calls it makes and the text it prints,
    then [dir_to_device], [print_devno], [usage] and [main]. *)

From Stdlib Require Import ZArith List String Ascii Bool Lia DecimalString.
Import ListNotations.

Local Open Scope string_scope.
Local Open Scope Z_scope.

(** ** Constants of the C environment *)

(** <limits.h> *)
Definition PATH_MAX : Z := 4096.
Definition INT_MAX : Z := 2147483647.

(** <stdlib.h> *)
Definition EXIT_SUCCESS : Z := 0.
Definition EXIT_FAILURE : Z := 1.

(** mountpoint.c, line 35 *)
Definition MOUNTPOINT_EXIT_NOMNT : Z := 32.

(** <errno.h> *)
Definition ENAMETOOLONG : Z := 36.

(** <sys/stat.h>: the file-type bits of [st_mode]. *)
Definition S_IFMT : Z := 0xF000.
Definition S_IFBLK : Z := 0x6000.
Definition S_IFLNK : Z := 0xA000.

Definition S_ISBLK (mode : Z) : bool := Z.land mode S_IFMT =? S_IFBLK.
Definition S_ISLNK (mode : Z) : bool := Z.land mode S_IFMT =? S_IFLNK.

(** <sys/sysmacros.h> (glibc): the two halves of a [dev_t]. *)
Definition major (dev : Z) : Z :=
  Z.lor (Z.shiftr (Z.land dev 0x00000000000fff00) 8)
        (Z.shiftr (Z.land dev 0xfffff00000000000) 32).

Definition minor (dev : Z) : Z :=
  Z.lor (Z.land dev 0x00000000000000ff)
        (Z.shiftr (Z.land dev 0x00000ffffff00000) 12).

(** The code of a character, as [getopt_long] returns it. *)
Definition chr (a : ascii) : Z := Z.of_N (N_of_ascii a).

(** '\n' *)
Definition nl : string := String (ascii_of_nat 10) EmptyString.

(** printf's [%u] conversion of an [unsigned int]. *)
Definition fmt_u (z : Z) : string :=
  NilEmpty.string_of_uint (N.to_uint (Z.to_N (z mod 2 ^ 32))).

(** [snprintf (buf, size, "%s", s)]: the count that would have been written
    (negative when it does not fit an [int]) and what [buf] holds
    afterwards, at most [size - 1] characters before the terminator. *)
Definition snprintf (size : Z) (s : string) : Z * string :=
  let len := Z.of_nat (String.length s) in
  if INT_MAX <? len then (-1, EmptyString)
  else (len, substring 0 (Z.to_nat (size - 1)) s).

(** ** Data *)

(** The fields of [struct stat] the program reads. *)
Record stat_t : Type := mk_stat {
  st_dev : Z;
  st_ino : Z;
  st_mode : Z;
  st_rdev : Z
}.

Definition stat_zero : stat_t := mk_stat 0 0 0 0.

(** The outcome of a [stat] or [lstat] call: filled buffer or [errno]. *)
Inductive stat_result : Type :=
| StatOk (s : stat_t)
| StatErr (errno : Z).

(** [struct mountpoint_control], lines 37-45. *)
Record mountpoint_control : Type := mk_ctl {
  path : string;
  dev : Z;
  st : stat_t;
  dev_devno : bool;
  fs_devno : bool;
  nofollow : bool;
  quiet : bool
}.

(** [struct mountpoint_control ctl = { NULL }]: everything zero.  The path
    is only read after line 189 has set it. *)
Definition ctl_init : mountpoint_control :=
  mk_ctl EmptyString 0 stat_zero false false false false.

Definition set_path (c : mountpoint_control) (p : string) :=
  mk_ctl p (dev c) (st c) (dev_devno c) (fs_devno c) (nofollow c) (quiet c).
Definition set_dev (c : mountpoint_control) (d : Z) :=
  mk_ctl (path c) d (st c) (dev_devno c) (fs_devno c) (nofollow c) (quiet c).
Definition set_st (c : mountpoint_control) (s : stat_t) :=
  mk_ctl (path c) (dev c) s (dev_devno c) (fs_devno c) (nofollow c) (quiet c).
Definition set_dev_devno (c : mountpoint_control) (b : bool) :=
  mk_ctl (path c) (dev c) (st c) b (fs_devno c) (nofollow c) (quiet c).
Definition set_fs_devno (c : mountpoint_control) (b : bool) :=
  mk_ctl (path c) (dev c) (st c) (dev_devno c) b (nofollow c) (quiet c).
Definition set_nofollow (c : mountpoint_control) (b : bool) :=
  mk_ctl (path c) (dev c) (st c) (dev_devno c) (fs_devno c) b (quiet c).
Definition set_quiet (c : mountpoint_control) (b : bool) :=
  mk_ctl (path c) (dev c) (st c) (dev_devno c) (fs_devno c) (nofollow c) b.

(** One line of the mount table as libmount exposes it: the target (which
    [mnt_fs_get_target] may report as NULL) and the device number. *)
Record libmnt_fs : Type := mk_fs {
  mnt_fs_get_target : option string;
  mnt_fs_get_devno : Z
}.

(** The table, in file order: later entries are later mounts. *)
Definition libmnt_table : Type := list libmnt_fs.

(** ** The environment

    What the program can observe during one run.  Nothing here is changed
    by the program. *)
Record world : Type := mk_world {
  (** the file system as [stat] and [lstat] see it, for names the kernel
      accepts *)
  fs_stat : string -> stat_result;
  fs_lstat : string -> stat_result;
  (** [mnt_new_table_from_file (_PATH_PROC_MOUNTINFO)]: NULL or the table *)
  proc_mountinfo : option libmnt_table;
  (** [mnt_resolve_path (path, NULL)]: NULL or the canonical name *)
  resolve_path : string -> option string;
  (** libc *)
  strerror : Z -> string;
  program_invocation_short_name : string;
  (** strings of include/c.h and config.h that [usage] and
      [print_version] print *)
  USAGE_HEADER : string;
  USAGE_SEPARATOR : string;
  USAGE_OPTIONS : string;
  USAGE_HELP_OPTIONS : Z -> string;
  USAGE_MAN_TAIL : string -> string;
  PACKAGE_STRING : string
}.

(** ** Traces

    Every call that touches the system and every piece of text written is
    recorded, in order. *)
Inductive event : Type :=
| ev_stat (name : string)
| ev_lstat (name : string)
| ev_mountinfo
| ev_resolve (name : string)
| ev_stdout (text : string)
| ev_stderr (text : string).

Definition trace : Type := list event.

(** A computation either returns or has called [exit]. *)
Inductive outcome (A : Type) : Type :=
| Ret (a : A)
| Exit (status : Z).
Arguments Ret {A} a.
Arguments Exit {A} status.

Definition M (A : Type) : Type := (trace * outcome A)%type.

Definition ret {A} (a : A) : M A := ([], Ret a).

Definition bind {A B} (m : M A) (f : A -> M B) : M B :=
  match m with
  | (t, Ret a) => let (t', r) := f a in ((t ++ t')%list, r)
  | (t, Exit s) => (t, Exit s)
  end.

Definition emit (e : event) : M unit := ([e], Ret tt).

Definition exit {A} (status : Z) : M A := ([], Exit status).

Notation "x <- m ;; k" := (bind m (fun x => k))
  (at level 61, m at next level, right associativity).
Notation "' p <- m ;; k" := (bind m (fun x => match x with p => k end))
  (at level 61, p pattern, m at next level, right associativity).
Notation "m ;;; k" := (bind m (fun _ => k))
  (at level 61, right associativity).

(** ** System and library calls *)

(** The kernel refuses a name of [PATH_MAX] bytes or more (counting the
    terminator, [PATH_MAX - 1] is the longest it reads). *)
Definition name_too_long (name : string) : bool :=
  PATH_MAX <=? Z.of_nat (String.length name).

Definition sys_stat (w : world) (name : string) : stat_result :=
  if name_too_long name then StatErr ENAMETOOLONG else fs_stat w name.

Definition sys_lstat (w : world) (name : string) : stat_result :=
  if name_too_long name then StatErr ENAMETOOLONG else fs_lstat w name.

Definition stat (w : world) (name : string) : M stat_result :=
  emit (ev_stat name) ;;; ret (sys_stat w name).

Definition lstat (w : world) (name : string) : M stat_result :=
  emit (ev_lstat name) ;;; ret (sys_lstat w name).

Definition mnt_new_table_from_file (w : world) : M (option libmnt_table) :=
  emit ev_mountinfo ;;; ret (proc_mountinfo w).

Definition mnt_resolve_path (w : world) (name : string) : M (option string) :=
  emit (ev_resolve name) ;;; ret (resolve_path w name).

Definition printf (text : string) : M unit := emit (ev_stdout text).

(** <err.h>: [warnx], [errx] and [err] prefix the program name; [err]
    appends the text of [errno]; the last two leave the program. *)
Definition warnx (w : world) (msg : string) : M unit :=
  emit (ev_stderr (program_invocation_short_name w ++ ": " ++ msg ++ nl)).

Definition errx {A} (w : world) (eval : Z) (msg : string) : M A :=
  warnx w msg ;;; exit eval.

Definition err {A} (w : world) (eval : Z) (msg : string) (errno : Z) : M A :=
  warnx w (msg ++ ": " ++ strerror w errno) ;;; exit eval.

(** Modelled from the spec: [errtryhelp] of include/c.h, which is not part
    of the file: a usage error writes a hint to standard error and leaves
    with the status given. *)
Definition errtryhelp {A} (w : world) (eval : Z) : M A :=
  emit (ev_stderr ("Try '" ++ program_invocation_short_name w
                   ++ " --help' for more information." ++ nl)) ;;;
  exit eval.

(** Modelled from the spec: [print_version] of include/c.h, which is not
    part of the file: it prints the version line and leaves with the status
    given. *)
Definition print_version {A} (w : world) (eval : Z) : M A :=
  printf (program_invocation_short_name w ++ " from " ++ PACKAGE_STRING w ++ nl) ;;;
  exit eval.

(** The name the detector works with: the canonical one when libmount
    resolves the path, else the path as given (line 65,
    [cn ? cn : ctl->path]). *)
Definition canonical (w : world) (p : string) : string :=
  match resolve_path w p with
  | Some cn => cn
  | None => p
  end.

(** The entry is mounted on [p]. *)
Definition target_is (p : string) (fs : libmnt_fs) : bool :=
  match mnt_fs_get_target fs with
  | Some t => String.eqb t p
  | None => false
  end.

(** Modelled from the spec: [mnt_table_find_target (tb, path,
    MNT_ITER_BACKWARD)] of libmount, which is not part of the file.  The
    path is canonicalized, through the cache that lines 82-84 tie to the
    table, and the entries are scanned from the most recent mount to the
    oldest; the first one whose target is the canonical path is the answer.
    The canonicalization is a call like the one of line 63 and is recorded
    as such. *)
Definition mnt_table_find_target (w : world) (tb : libmnt_table) (p : string)
  : M (option libmnt_fs) :=
  cn <- mnt_resolve_path w p ;;
  ret (find (target_is (match cn with Some c => c | None => p end)) (rev tb)).

(** ** dir_to_device, lines 47-94

    The return value and the control block as the function leaves it. *)
Definition dir_to_device (w : world) (ctl : mountpoint_control)
  : M (Z * mountpoint_control) :=
  tb <- mnt_new_table_from_file w ;;
  match tb with
  | None =>
      (* Fallback, lines 54-79 *)
      cn <- mnt_resolve_path w (path ctl) ;;
      let '(len, buf) :=
        snprintf PATH_MAX
                 ((match cn with Some c => c | None => path ctl end) ++ "/..") in
      if (len <? 0) || (PATH_MAX <=? len) then ret (-1, ctl)
      else
        r <- stat w buf ;;
        match r with
        | StatErr _ => ret (-1, ctl)
        | StatOk pst =>
            if negb (st_dev (st ctl) =? st_dev pst)
               || (st_ino (st ctl) =? st_ino pst)
            then ret (0, set_dev ctl (st_dev (st ctl)))
            else ret (-1, ctl)
        end
  | Some tb =>
      (* lines 81-93 *)
      fs <- mnt_table_find_target w tb (path ctl) ;;
      match fs with
      | Some fs =>
          match mnt_fs_get_target fs with
          | Some _ => ret (0, set_dev ctl (mnt_fs_get_devno fs))
          | None => ret (-1, ctl)
          end
      | None => ret (-1, ctl)
      end
  end.

(** ** print_devno, lines 96-105 *)
Definition devno_line (d : Z) : string :=
  fmt_u (major d) ++ ":" ++ fmt_u (minor d) ++ nl.

Definition print_devno (w : world) (ctl : mountpoint_control) : M Z :=
  if negb (S_ISBLK (st_mode (st ctl))) then
    (if negb (quiet ctl)
     then warnx w (path ctl ++ ": not a block device")
     else ret tt) ;;;
    ret (-1)
  else
    printf (devno_line (st_rdev (st ctl))) ;;;
    ret 0.

(** ** usage, lines 107-128 *)
Definition usage {A} (w : world) : M A :=
  let prog := program_invocation_short_name w in
  printf (USAGE_HEADER w) ;;;
  printf (" " ++ prog ++ " [-qd] /path/to/directory" ++ nl ++
          " " ++ prog ++ " -x /dev/device" ++ nl) ;;;
  printf (USAGE_SEPARATOR w) ;;;
  printf ("Check whether a directory or file is a mountpoint." ++ nl) ;;;
  printf (USAGE_OPTIONS w) ;;;
  printf (" -q, --quiet        quiet mode - don't print anything" ++ nl ++
          "     --nofollow     do not follow symlink" ++ nl ++
          " -d, --fs-devno     print maj:min device number of the filesystem" ++ nl ++
          " -x, --devno        print maj:min device number of the block device" ++ nl) ;;;
  printf (USAGE_SEPARATOR w) ;;;
  printf (USAGE_HELP_OPTIONS w 20) ;;;
  printf (USAGE_MAN_TAIL w "mountpoint(1)") ;;;
  exit EXIT_SUCCESS.

(** ** main, lines 130-210

    The locale and debug set-up of lines 149-154 has no effect on what
    follows and is left out, as is the flush of standard output that
    [close_stdout_atexit] registers: writes are taken to succeed. *)

(** [OPT_NOFOLLOW = CHAR_MAX + 1] *)
Definition CHAR_MAX : Z := 127.
Definition OPT_NOFOLLOW : Z := CHAR_MAX + 1.

(** What [getopt_long] makes of the command line: the values it returns,
    one per option, until it returns -1, and the arguments it leaves at
    [argv[optind]] and after.  The message [getopt_long] itself writes for
    an option it does not know is not recorded. *)
Record invocation : Type := mk_inv {
  getopt_results : list Z;
  operands : list string
}.

(** The body of the [switch], lines 158-178. *)
Definition option_case (w : world) (ctl : mountpoint_control) (c : Z)
  : M mountpoint_control :=
  if c =? chr "q" then ret (set_quiet ctl true)
  else if c =? OPT_NOFOLLOW then ret (set_nofollow ctl true)
  else if c =? chr "d" then ret (set_fs_devno ctl true)
  else if c =? chr "x" then ret (set_dev_devno ctl true)
  else if c =? chr "h" then usage w
  else if c =? chr "V" then print_version w EXIT_SUCCESS
  else errtryhelp w EXIT_FAILURE.

(** The [while] loop, lines 156-179. *)
Fixpoint option_loop (w : world) (ctl : mountpoint_control) (cs : list Z)
  : M mountpoint_control :=
  match cs with
  | [] => ret ctl
  | c :: cs' => ctl' <- option_case w ctl c ;; option_loop w ctl' cs'
  end.

(** Lines 189-209, once the options and the operand count are accepted.
    The [||] of line 199 does not call [dir_to_device] when its left
    operand holds; the value of the condition is then 1. *)
Definition inspect (w : world) (ctl0 : mountpoint_control) (p : string) : M Z :=
  let ctl := set_path ctl0 p in
  c <- (if nofollow ctl then lstat w (path ctl) else stat w (path ctl)) ;;
  match c with
  | StatErr errno =>
      if negb (quiet ctl) then err w EXIT_FAILURE (path ctl) errno
      else ret EXIT_FAILURE
  | StatOk s =>
      let ctl := set_st ctl s in
      if dev_devno ctl then
        rc <- print_devno w ctl ;;
        ret (if rc =? 0 then EXIT_SUCCESS else MOUNTPOINT_EXIT_NOMNT)
      else
        '(rc, ctl) <- (if nofollow ctl && S_ISLNK (st_mode (st ctl))
                       then ret (1, ctl)
                       else dir_to_device w ctl) ;;
        if negb (rc =? 0) then
          (if negb (quiet ctl)
           then printf (path ctl ++ " is not a mountpoint" ++ nl)
           else ret tt) ;;;
          ret MOUNTPOINT_EXIT_NOMNT
        else
          (if fs_devno ctl then printf (devno_line (dev ctl))
           else if negb (quiet ctl)
                then printf (path ctl ++ " is a mountpoint" ++ nl)
                else ret tt) ;;;
          ret EXIT_SUCCESS
  end.

Definition main (w : world) (inv : invocation) : M Z :=
  ctl <- option_loop w ctl_init (getopt_results inv) ;;
  match operands inv with
  | [p] =>
      if nofollow ctl && dev_devno ctl then
        errx w EXIT_FAILURE "--devno and --nofollow are mutually exclusive"
      else inspect w ctl p
  | _ =>
      warnx w "bad usage" ;;;
      errtryhelp w EXIT_FAILURE
  end.

(** ** Observations on a run *)

(** The status the process ends with, whether [main] returned it or
    [exit] was called with it. *)
Definition exit_status (m : M Z) : Z :=
  match snd m with
  | Ret s => s
  | Exit s => s
  end.

Definition events {A} (m : M A) : trace := fst m.

Definition is_text (e : event) : bool :=
  match e with
  | ev_stdout _ | ev_stderr _ => true
  | _ => false
  end.

Definition is_stat_call (e : event) : bool :=
  match e with
  | ev_stat _ | ev_lstat _ => true
  | _ => false
  end.

Definition is_detector_call (e : event) : bool :=
  match e with
  | ev_mountinfo | ev_resolve _ => true
  | _ => false
  end.

(** A call that looks at the file system or at the mount table. *)
Definition touches_system (e : event) : bool :=
  is_stat_call e || is_detector_call e.

(** Everything written to standard output or standard error. *)
Definition text_of (t : trace) : trace := filter is_text t.

(** The name whose stat the fallback compares with: line 65. *)
Definition parent_name (w : world) (p : string) : string :=
  canonical w p ++ "/..".

(** The options that only set a flag (lines 159-170). *)
Definition is_flag (c : Z) : bool :=
  (c =? chr "q") || (c =? OPT_NOFOLLOW) || (c =? chr "d") || (c =? chr "x").

Definition flags_only (inv : invocation) : bool :=
  forallb is_flag (getopt_results inv).

(** [given c inv]: [getopt_long] reported option [c]. *)
Definition given (c : Z) (inv : invocation) : bool :=
  existsb (Z.eqb c) (getopt_results inv).

(** The control block after a run of flag options. *)
Definition with_flags (ctl : mountpoint_control) (cs : list Z)
  : mountpoint_control :=
  mk_ctl (path ctl) (dev ctl) (st ctl)
         (dev_devno ctl || existsb (Z.eqb (chr "x")) cs)
         (fs_devno ctl || existsb (Z.eqb (chr "d")) cs)
         (nofollow ctl || existsb (Z.eqb OPT_NOFOLLOW) cs)
         (quiet ctl || existsb (Z.eqb (chr "q")) cs).

(** The same command line with every [-q] taken out. *)
Definition without_quiet (inv : invocation) : invocation :=
  mk_inv (filter (fun c => negb (c =? chr "q")) (getopt_results inv))
         (operands inv).

(** The control block [main] works with once flag options are read. *)
Definition parsed (inv : invocation) : mountpoint_control :=
  with_flags ctl_init (getopt_results inv).

(** ** Sample environments *)

Definition ENOENT : Z := 2.
Definition EACCES : Z := 13.

Definition S_IFDIR : Z := 0x4000.

(** A file system given by a table of names; a name that is not listed
    does not exist. *)
Definition stat_table (files : list (string * stat_result)) (name : string)
  : stat_result :=
  match find (fun e => String.eqb (fst e) name) files with
  | Some e => snd e
  | None => StatErr ENOENT
  end.

Definition sample_strerror (e : Z) : string :=
  if e =? ENOENT then "No such file or directory"
  else if e =? EACCES then "Permission denied"
  else if e =? ENAMETOOLONG then "File name too long"
  else "Unknown error".

(** An environment where every name is already canonical. *)
Definition sample_world (files links : list (string * stat_result))
           (tb : option libmnt_table) : world :=
  mk_world (stat_table files) (stat_table (links ++ files)%list) tb
           (fun p => Some p) sample_strerror "mountpoint"
           EmptyString EmptyString EmptyString
           (fun _ => EmptyString) (fun _ => EmptyString) "util-linux".

(** The decision [dir_to_device] reaches for a path and its stat buffer:
    the calls it made, and the device it stored when it returned 0. *)
Definition mount_decision (w : world) (p : string) (s : stat_t)
  : trace * option Z :=
  match dir_to_device w (set_st (set_path ctl_init p) s) with
  | (t, Ret (rc, ctl')) => (t, if rc =? 0 then Some (dev ctl') else None)
  | (t, Exit _) => (t, None)
  end.

(** The lines [main] prints. *)
Definition not_mountpoint_line (p : string) : string :=
  p ++ " is not a mountpoint" ++ nl.
Definition mountpoint_line (p : string) : string :=
  p ++ " is a mountpoint" ++ nl.
Definition not_block_line (w : world) (p : string) : string :=
  program_invocation_short_name w ++ ": " ++ (p ++ ": not a block device") ++ nl.
Definition stat_error_line (w : world) (p : string) (errno : Z) : string :=
  program_invocation_short_name w ++ ": " ++ (p ++ ": " ++ strerror w errno) ++ nl.

(** The stat call of line 190 and its answer. *)
Definition target_call (ctl : mountpoint_control) (p : string) : event :=
  if nofollow ctl then ev_lstat p else ev_stat p.
Definition target_stat (w : world) (ctl : mountpoint_control) (p : string)
  : stat_result :=
  if nofollow ctl then sys_lstat w p else sys_stat w p.

(** ** The two strategies side by side

    [dir_to_device] picks the strategy by whether the mount table loads.
    To compare the two on one file system, the same environment is taken
    once with a table and once without. *)
Definition with_mountinfo (w : world) (tb : option libmnt_table) : world :=
  mk_world (fs_stat w) (fs_lstat w) tb (resolve_path w) (strerror w)
           (program_invocation_short_name w) (USAGE_HEADER w)
           (USAGE_SEPARATOR w) (USAGE_OPTIONS w) (USAGE_HELP_OPTIONS w)
           (USAGE_MAN_TAIL w) (PACKAGE_STRING w).

(** isMountpoint: [dir_to_device] returned 0. *)
Definition verdict (m : M (Z * mountpoint_control)) : bool :=
  match snd m with
  | Ret (rc, _) => rc =? 0
  | Exit _ => false
  end.

Definition detect_via_table (w : world) (tb : libmnt_table)
           (ctl : mountpoint_control) : bool :=
  verdict (dir_to_device (with_mountinfo w (Some tb)) ctl).

Definition detect_via_fallback (w : world) (ctl : mountpoint_control) : bool :=
  verdict (dir_to_device (with_mountinfo w None) ctl).

(** The path is the target of some entry of the table. *)
Definition is_mount_target (w : world) (tb : libmnt_table) (p : string) : bool :=
  existsb (target_is (canonical w p)) tb.

(** The path sits on the device of its parent directory and is not the
    same inode as the parent. *)
Definition same_device_as_parent (w : world) (ctl : mountpoint_control) : bool :=
  match sys_stat w (parent_name w (path ctl)) with
  | StatOk pst =>
      (st_dev (st ctl) =? st_dev pst) && negb (st_ino (st ctl) =? st_ino pst)
  | StatErr _ => false
  end.

(** Modelled from the spec: a bind mount, which the program has no
    definition of, is a mount that does not change the underlying device:
    a mount target that device-number comparison cannot tell from a
    directory that is not mounted. *)
Definition is_bind_mount (w : world) (tb : libmnt_table)
           (ctl : mountpoint_control) : bool :=
  is_mount_target w tb (path ctl) && same_device_as_parent w ctl.

(** ** Concrete runs *)

Definition dir_stat (d i : Z) : stat_t := mk_stat d i S_IFDIR 0.

(** /mnt is a directory whose parent cannot be searched; no mount table. *)
Definition w_unsearchable : world :=
  sample_world [("/mnt", StatOk (dir_stat 2049 131073));
                ("/mnt/..", StatErr EACCES)] [] None.

(** /mnt is the root of device 8:17, its parent is on 8:1; no mount
    table. *)
Definition w_fallback : world :=
  sample_world [("/mnt", StatOk (dir_stat 2065 2));
                ("/mnt/..", StatOk (dir_stat 2049 2))] [] None.

(** /mnt has been mounted twice, first from 8:2, then from 8:17. *)
Definition tb_stacked : libmnt_table :=
  [mk_fs (Some "/") 2049; mk_fs (Some "/mnt") 2050; mk_fs (Some "/mnt") 2065].

Definition w_stacked : world :=
  sample_world [("/mnt", StatOk (dir_stat 2065 2));
                ("/mnt/..", StatOk (dir_stat 2049 2));
                ("/dev/sdb1", StatOk (mk_stat 5 300 S_IFBLK 2065))]
               [("/link", StatOk (mk_stat 2049 77 S_IFLNK 0))]
               (Some tb_stacked).

(** /data is a subvolume: a device of its own, but no entry in the mount
    table. *)
Definition tb_root_only : libmnt_table := [mk_fs (Some "/") 2049].

Definition w_subvolume : world :=
  sample_world [("/data", StatOk (dir_stat 54 256));
                ("/data/..", StatOk (dir_stat 2049 2))] [] None.

(** A name of 4093 characters: with "/.." it no longer fits the buffer. *)
Fixpoint replicate (n : nat) (a : ascii) : string :=
  match n with
  | O => EmptyString
  | S n' => String a (replicate n' a)
  end.

Definition long_name : string := String "/" (replicate 4092 "a").

Definition w_long : world :=
  mk_world (fun n => if String.eqb n long_name
                     then StatOk (dir_stat 2049 1000) else StatErr ENOENT)
           (fun n => if String.eqb n long_name
                     then StatOk (dir_stat 2049 1000) else StatErr ENOENT)
           None (fun p => Some p) sample_strerror "mountpoint"
           EmptyString EmptyString EmptyString
           (fun _ => EmptyString) (fun _ => EmptyString) "util-linux".

(** ** The two output streams *)

Definition is_stdout (e : event) : bool :=
  match e with
  | ev_stdout _ => true
  | _ => false
  end.

Definition is_stderr (e : event) : bool :=
  match e with
  | ev_stderr _ => true
  | _ => false
  end.

(** The command line with one more option in front. *)
Definition with_option (c : Z) (inv : invocation) : invocation :=
  mk_inv (c :: getopt_results inv) (operands inv).

(** /srv/www is a bind mount of a directory of the root file system: the
    table lists it, the device is the parent's. *)
Definition tb_bind : libmnt_table :=
  [mk_fs (Some "/") 2049; mk_fs (Some "/srv/www") 2049].

Definition w_bind : world :=
  sample_world [("/srv/www", StatOk (dir_stat 2049 4711));
                ("/srv/www/..", StatOk (dir_stat 2049 4000))] [] None.

(** * Properties *)

Ltac ctl_simpl :=
  cbn [set_path set_dev set_st set_dev_devno set_fs_devno set_nofollow
       set_quiet path dev st dev_devno fs_devno nofollow quiet] in *.

(** ** Strings and buffers *)

Lemma substring_all (s : string) (n : nat) :
  (String.length s <= n)%nat -> substring 0 n s = s.
Proof.
  revert n; induction s as [|a s IH]; intros n H.
  - destruct n; reflexivity.
  - destruct n as [|n]; simpl in *; [lia|].
    rewrite IH by lia. reflexivity.
Qed.

Lemma substring_length_le (s : string) (n : nat) :
  (String.length (substring 0 n s) <= n)%nat.
Proof.
  revert n; induction s as [|a s IH]; intros n.
  - destruct n; simpl; lia.
  - destruct n as [|n]; simpl; [lia|]. specialize (IH n). lia.
Qed.

(** [snprintf] never leaves more than [size - 1] characters in the buffer. *)
Lemma snprintf_bounded (size : Z) (s : string) :
  0 < size -> Z.of_nat (String.length (snd (snprintf size s))) < size.
Proof.
  intros Hs. unfold snprintf.
  destruct (INT_MAX <? Z.of_nat (String.length s)); simpl; [lia|].
  pose proof (substring_length_le s (Z.to_nat (size - 1))). lia.
Qed.

Lemma snprintf_fits (s : string) :
  Z.of_nat (String.length s) < PATH_MAX ->
  snprintf PATH_MAX s = (Z.of_nat (String.length s), s).
Proof.
  intros H. unfold snprintf.
  destruct (INT_MAX <? Z.of_nat (String.length s)) eqn:E.
  - apply Z.ltb_lt in E. unfold PATH_MAX, INT_MAX in *. lia.
  - rewrite substring_all; [reflexivity|]. unfold PATH_MAX in *. lia.
Qed.

Lemma snprintf_overlong (s : string) :
  PATH_MAX <= Z.of_nat (String.length s) ->
  let len := fst (snprintf PATH_MAX s) in
  (len <? 0) || (PATH_MAX <=? len) = true.
Proof.
  intros H. unfold snprintf.
  destruct (INT_MAX <? Z.of_nat (String.length s)); simpl.
  - reflexivity.
  - apply orb_true_iff; right. now apply Z.leb_le.
Qed.

(** ** The three ways through dir_to_device *)

Lemma dir_to_device_table (w : world) (ctl : mountpoint_control)
      (tb : libmnt_table) :
  proc_mountinfo w = Some tb ->
  dir_to_device w ctl =
  ([ev_mountinfo; ev_resolve (path ctl)],
   Ret match find (target_is (canonical w (path ctl))) (rev tb) with
       | Some fs =>
           match mnt_fs_get_target fs with
           | Some _ => (0, set_dev ctl (mnt_fs_get_devno fs))
           | None => (-1, ctl)
           end
       | None => (-1, ctl)
       end).
Proof.
  intros H.
  unfold dir_to_device, mnt_new_table_from_file, mnt_table_find_target,
    mnt_resolve_path.
  cbn [bind emit ret]. rewrite H. cbn [bind emit ret app].
  fold (canonical w (path ctl)).
  destruct (find (target_is (canonical w (path ctl))) (rev tb)) as [fs|];
    [|reflexivity].
  destruct (mnt_fs_get_target fs); reflexivity.
Qed.

Section Fallback.

Variable w : world.
Hypothesis no_table : proc_mountinfo w = None.

Lemma dir_to_device_overlong (ctl : mountpoint_control) :
  PATH_MAX <= Z.of_nat (String.length (parent_name w (path ctl))) ->
  dir_to_device w ctl =
  ([ev_mountinfo; ev_resolve (path ctl)], Ret (-1, ctl)).
Proof.
  intros L. unfold dir_to_device, mnt_new_table_from_file, mnt_resolve_path.
  cbn [bind emit ret]. rewrite no_table. cbn [bind emit ret app].
  pose proof (snprintf_overlong _ L) as E. cbn zeta in E.
  unfold parent_name, canonical in *.
  destruct (snprintf PATH_MAX _) as [len buf]. cbn [fst] in E.
  rewrite E. reflexivity.
Qed.

Lemma dir_to_device_fallback (ctl : mountpoint_control) :
  Z.of_nat (String.length (parent_name w (path ctl))) < PATH_MAX ->
  dir_to_device w ctl =
  ([ev_mountinfo; ev_resolve (path ctl); ev_stat (parent_name w (path ctl))],
   Ret match sys_stat w (parent_name w (path ctl)) with
       | StatErr _ => (-1, ctl)
       | StatOk pst =>
           if negb (st_dev (st ctl) =? st_dev pst)
              || (st_ino (st ctl) =? st_ino pst)
           then (0, set_dev ctl (st_dev (st ctl)))
           else (-1, ctl)
       end).
Proof.
  intros L. unfold dir_to_device, mnt_new_table_from_file, mnt_resolve_path.
  cbn [bind emit ret]. rewrite no_table. cbn [bind emit ret app].
  unfold parent_name, canonical in *.
  rewrite (snprintf_fits _ L).
  assert (E : (Z.of_nat (String.length
             (match resolve_path w (path ctl) with
              | Some cn => cn | None => path ctl end ++ "/..")) <? 0)
            || (PATH_MAX <=? Z.of_nat (String.length
             (match resolve_path w (path ctl) with
              | Some cn => cn | None => path ctl end ++ "/.."))) = false).
  { apply orb_false_iff; split; [apply Z.ltb_ge; lia | apply Z.leb_gt; lia]. }
  rewrite E. unfold stat. cbn [bind emit ret app].
  destruct (sys_stat w _) as [pst|e]; [|reflexivity].
  destruct (negb _ || _); reflexivity.
Qed.

End Fallback.

(** [dir_to_device] reads only the path and the stat buffer of the control
    block, returns 0 or -1, and touches only [dev]. *)
Lemma dir_to_device_decision (w : world) (ctl : mountpoint_control) :
  dir_to_device w ctl =
  (fst (mount_decision w (path ctl) (st ctl)),
   Ret match snd (mount_decision w (path ctl) (st ctl)) with
       | Some d => (0, set_dev ctl d)
       | None => (-1, ctl)
       end).
Proof.
  unfold mount_decision.
  set (c0 := set_st (set_path ctl_init (path ctl)) (st ctl)).
  assert (Hp : path c0 = path ctl) by reflexivity.
  assert (Hs : st c0 = st ctl) by reflexivity.
  destruct (proc_mountinfo w) as [tb|] eqn:Etb.
  - rewrite (dir_to_device_table w ctl tb Etb), (dir_to_device_table w c0 tb Etb).
    rewrite Hp.
    destruct (find (target_is (canonical w (path ctl))) (rev tb)) as [fs|];
      [|reflexivity].
    destruct (mnt_fs_get_target fs); reflexivity.
  - destruct (Z_lt_le_dec (Z.of_nat (String.length (parent_name w (path ctl))))
                          PATH_MAX) as [L|L].
    + rewrite (dir_to_device_fallback w Etb ctl L).
      rewrite (dir_to_device_fallback w Etb c0); rewrite Hp; [|exact L].
      rewrite Hs.
      destruct (sys_stat w (parent_name w (path ctl))) as [pst|e]; [|reflexivity].
      destruct (negb _ || _); reflexivity.
    + rewrite (dir_to_device_overlong w Etb ctl L).
      rewrite (dir_to_device_overlong w Etb c0); [reflexivity|].
      rewrite Hp; exact L.
Qed.

(** ** The option loop *)

Lemma option_loop_flags (w : world) (cs : list Z) :
  forallb is_flag cs = true ->
  forall ctl, option_loop w ctl cs = ([], Ret (with_flags ctl cs)).
Proof.
  induction cs as [|c cs IH]; intros H ctl.
  - destruct ctl; unfold with_flags; cbn.
    now rewrite !orb_false_r.
  - cbn [forallb] in H. apply andb_true_iff in H as [Hc Hcs].
    cbn [option_loop]. unfold option_case, is_flag in *.
    destruct (Z.eqb_spec c (chr "q")) as [->|_];
      [|destruct (Z.eqb_spec c OPT_NOFOLLOW) as [->|_];
        [|destruct (Z.eqb_spec c (chr "d")) as [->|_];
          [|destruct (Z.eqb_spec c (chr "x")) as [->|_]; [|discriminate]]]].
    all: unfold bind, ret; rewrite (IH Hcs); destruct ctl as [p d s a b c e];
      unfold with_flags; cbn;
      destruct a, b, c, e; reflexivity.
Qed.

(** ** main on an accepted command line *)

Lemma inspect_eq (w : world) (ctl : mountpoint_control) (p : string) :
  inspect w ctl p =
  match target_stat w ctl p with
  | StatErr e =>
      if quiet ctl then ([target_call ctl p], Ret EXIT_FAILURE)
      else ([target_call ctl p; ev_stderr (stat_error_line w p e)],
            Exit EXIT_FAILURE)
  | StatOk s =>
      if dev_devno ctl then
        if S_ISBLK (st_mode s)
        then ([target_call ctl p; ev_stdout (devno_line (st_rdev s))],
              Ret EXIT_SUCCESS)
        else (target_call ctl p ::
                (if quiet ctl then [] else [ev_stderr (not_block_line w p)]),
              Ret MOUNTPOINT_EXIT_NOMNT)
      else if nofollow ctl && S_ISLNK (st_mode s) then
        (target_call ctl p ::
           (if quiet ctl then [] else [ev_stdout (not_mountpoint_line p)]),
         Ret MOUNTPOINT_EXIT_NOMNT)
      else
        match mount_decision w p s with
        | (t, None) =>
            ((target_call ctl p :: t) ++
               (if quiet ctl then [] else [ev_stdout (not_mountpoint_line p)]),
             Ret MOUNTPOINT_EXIT_NOMNT)%list
        | (t, Some d) =>
            ((target_call ctl p :: t) ++
               (if fs_devno ctl then [ev_stdout (devno_line d)]
                else if quiet ctl then []
                     else [ev_stdout (mountpoint_line p)]),
             Ret EXIT_SUCCESS)%list
        end
  end.
Proof.
  unfold inspect, target_stat, target_call.
  destruct ctl as [p0 d0 s0 x fd nf q]. ctl_simpl.
  assert (E :
    (if nf then lstat w p else stat w p) =
    ([if nf then ev_lstat p else ev_stat p],
     Ret (if nf then sys_lstat w p else sys_stat w p)) ).
  { destruct nf; reflexivity. }
  rewrite E. clear E. cbn [bind].
  destruct (if nf then sys_lstat w p else sys_stat w p) as [s|e].
  - destruct x.
    + unfold print_devno. ctl_simpl.
      destruct (S_ISBLK (st_mode s)); cbn.
      * reflexivity.
      * destruct q; reflexivity.
    + destruct (nf && S_ISLNK (st_mode s)).
      * cbn. destruct q; reflexivity.
      * rewrite dir_to_device_decision. ctl_simpl.
        destruct (mount_decision w p s) as [t [d|]]; cbn [fst snd bind].
        -- cbn. destruct fd; [|destruct q]; cbn; rewrite ?app_nil_r; reflexivity.
        -- cbn. destruct q; cbn; rewrite ?app_nil_r; reflexivity.
  - destruct q; reflexivity.
Qed.

Lemma parsed_flags (inv : invocation) :
  dev_devno (parsed inv) = given (chr "x") inv /\
  fs_devno (parsed inv) = given (chr "d") inv /\
  nofollow (parsed inv) = given OPT_NOFOLLOW inv /\
  quiet (parsed inv) = given (chr "q") inv.
Proof. repeat split. Qed.

Lemma main_flags_only (w : world) (inv : invocation) :
  flags_only inv = true ->
  main w inv =
  match operands inv with
  | [p] =>
      if given OPT_NOFOLLOW inv && given (chr "x") inv then
        ([ev_stderr (program_invocation_short_name w ++ ": " ++
                     "--devno and --nofollow are mutually exclusive" ++ nl)],
         Exit EXIT_FAILURE)
      else inspect w (parsed inv) p
  | _ =>
      ([ev_stderr (program_invocation_short_name w ++ ": " ++ "bad usage" ++ nl);
        ev_stderr ("Try '" ++ program_invocation_short_name w
                   ++ " --help' for more information." ++ nl)],
       Exit EXIT_FAILURE)
  end.
Proof.
  intros H. unfold main. rewrite (option_loop_flags w _ H).
  cbn [bind]. fold (parsed inv).
  destruct (operands inv) as [|p [|q l]]; try reflexivity.
  destruct (parsed_flags inv) as (Hx & _ & Hn & _). rewrite Hx, Hn.
  destruct (given OPT_NOFOLLOW inv && given (chr "x") inv); [reflexivity|].
  destruct (inspect w (parsed inv) p) as [t r]. reflexivity.
Qed.

(** ** The fallback strategy *)

(** A parent stat that succeeds was made on a name that fits the buffer. *)
Lemma sys_stat_ok_fits (w : world) (name : string) (s : stat_t) :
  sys_stat w name = StatOk s -> Z.of_nat (String.length name) < PATH_MAX.
Proof.
  unfold sys_stat, name_too_long. intros H.
  destruct (PATH_MAX <=? Z.of_nat (String.length name)) eqn:E; [discriminate|].
  now apply Z.leb_gt in E.
Qed.

(** C2: in the fallback strategy, when the stat of the parent succeeds,
    [dir_to_device] answers "mountpoint" (returns 0) exactly when the device
    of the path differs from the device of the parent or the two inodes are
    equal, and then stores the path's own device; otherwise it returns -1
    and leaves the control block as it was. *)
Theorem C2_fallback_decision (w : world) (ctl : mountpoint_control)
        (pst : stat_t) :
  proc_mountinfo w = None ->
  sys_stat w (parent_name w (path ctl)) = StatOk pst ->
  snd (dir_to_device w ctl) =
  Ret (if negb (st_dev (st ctl) =? st_dev pst) || (st_ino (st ctl) =? st_ino pst)
       then (0, set_dev ctl (st_dev (st ctl)))
       else (-1, ctl)).
Proof.
  intros Htb Hp.
  rewrite (dir_to_device_fallback w Htb ctl (sys_stat_ok_fits _ _ _ Hp)).
  cbn [snd]. rewrite Hp. reflexivity.
Qed.

Lemma C2_fallback_decision_witness :
  snd (dir_to_device w_fallback
         (set_st (set_path ctl_init "/mnt") (dir_stat 2065 2))) =
  Ret (0, set_dev (set_st (set_path ctl_init "/mnt") (dir_stat 2065 2)) 2065).
Proof.
  apply (C2_fallback_decision w_fallback
           (set_st (set_path ctl_init "/mnt") (dir_stat 2065 2))
           (dir_stat 2049 2)); reflexivity.
Defined.

(** C1, as the code has it: when the mount table cannot be loaded and the
    stat of the parent fails, [dir_to_device] returns -1 and the program
    ends with the non-mountpoint code, as for any other negative answer. *)
Theorem C1_parent_stat_failure_is_nomnt (w : world) (inv : invocation)
        (p : string) (s : stat_t) (e : Z) :
  flags_only inv = true ->
  given (chr "x") inv = false ->
  operands inv = [p] ->
  target_stat w (parsed inv) p = StatOk s ->
  proc_mountinfo w = None ->
  sys_stat w (parent_name w p) = StatErr e ->
  (forall ctl, path ctl = p -> snd (dir_to_device w ctl) = Ret (-1, ctl)) /\
  exit_status (main w inv) = MOUNTPOINT_EXIT_NOMNT.
Proof.
  intros Hf Hx Hop Hst Htb Hpar.
  assert (D : forall ctl, path ctl = p ->
                          snd (dir_to_device w ctl) = Ret (-1, ctl)).
  { intros ctl <-.
    destruct (Z_lt_le_dec (Z.of_nat (String.length (parent_name w (path ctl))))
                          PATH_MAX) as [L|L].
    - rewrite (dir_to_device_fallback w Htb ctl L). cbn [snd].
      now rewrite Hpar.
    - now rewrite (dir_to_device_overlong w Htb ctl L). }
  split; [exact D|].
  rewrite (main_flags_only w inv Hf), Hop, Hx, andb_false_r, inspect_eq, Hst.
  destruct (parsed_flags inv) as (Ex & _). rewrite Ex, Hx.
  destruct (nofollow (parsed inv) && S_ISLNK (st_mode s)).
  - reflexivity.
  - unfold mount_decision.
    specialize (D (set_st (set_path ctl_init p) s) eq_refl).
    destruct (dir_to_device w (set_st (set_path ctl_init p) s)) as [t r].
    cbn [snd] in D. subst r. reflexivity.
Qed.

Lemma C1_parent_stat_failure_is_nomnt_witness :
  exit_status (main w_unsearchable (mk_inv [] ["/mnt"])) = MOUNTPOINT_EXIT_NOMNT.
Proof.
  apply (C1_parent_stat_failure_is_nomnt w_unsearchable (mk_inv [] ["/mnt"])
           "/mnt" (dir_stat 2049 131073) EACCES); reflexivity.
Defined.

(** C1, as the spec states it, fails: here the mount table is unavailable,
    the path stats, the stat of its parent fails, no --devno is given, and
    the exit status is not the generic failure code. *)
Lemma C1_counterexample :
  proc_mountinfo w_unsearchable = None /\
  sys_stat w_unsearchable "/mnt" = StatOk (dir_stat 2049 131073) /\
  sys_stat w_unsearchable (parent_name w_unsearchable "/mnt") = StatErr EACCES /\
  given (chr "x") (mk_inv [] ["/mnt"]) = false /\
  exit_status (main w_unsearchable (mk_inv [] ["/mnt"])) <> EXIT_FAILURE.
Proof.
  repeat split. vm_compute. discriminate.
Qed.

(** C10: when the canonical name with "/.." appended does not fit a buffer
    of [PATH_MAX] bytes, [snprintf] keeps within the buffer,
    [dir_to_device] returns -1 without statting the parent, and the program
    reports "not a mountpoint" (unless quiet) with the non-mountpoint exit
    code. *)
Theorem C10_overlong_parent_name (w : world) (inv : invocation)
        (p : string) (s : stat_t) :
  flags_only inv = true ->
  given (chr "x") inv = false ->
  operands inv = [p] ->
  target_stat w (parsed inv) p = StatOk s ->
  given OPT_NOFOLLOW inv && S_ISLNK (st_mode s) = false ->
  proc_mountinfo w = None ->
  PATH_MAX <= Z.of_nat (String.length (parent_name w p)) ->
  Z.of_nat (String.length (snd (snprintf PATH_MAX (parent_name w p)))) < PATH_MAX /\
  (forall ctl, path ctl = p ->
     dir_to_device w ctl = ([ev_mountinfo; ev_resolve p], Ret (-1, ctl))) /\
  main w inv =
  ([target_call (parsed inv) p; ev_mountinfo; ev_resolve p] ++
     (if given (chr "q") inv then []
      else [ev_stdout (not_mountpoint_line p)]),
   Ret MOUNTPOINT_EXIT_NOMNT)%list.
Proof.
  intros Hf Hx Hop Hst Hl Htb L.
  split; [apply snprintf_bounded; reflexivity|].
  assert (D : forall ctl, path ctl = p ->
     dir_to_device w ctl = ([ev_mountinfo; ev_resolve p], Ret (-1, ctl))).
  { intros ctl <-. now apply dir_to_device_overlong. }
  split; [exact D|].
  rewrite (main_flags_only w inv Hf), Hop, Hx, andb_false_r, inspect_eq, Hst.
  destruct (parsed_flags inv) as (Ex & _ & En & Eq). rewrite Ex, Hx, En, Hl, Eq.
  unfold mount_decision.
  rewrite (D (set_st (set_path ctl_init p) s) eq_refl).
  reflexivity.
Qed.

Lemma C10_overlong_parent_name_witness :
  main w_long (mk_inv [] [long_name]) =
  ([ev_stat long_name; ev_mountinfo; ev_resolve long_name;
    ev_stdout (not_mountpoint_line long_name)],
   Ret MOUNTPOINT_EXIT_NOMNT).
Proof.
  apply (C10_overlong_parent_name w_long (mk_inv [] [long_name]) long_name
           (dir_stat 2049 1000)); vm_compute; (reflexivity || discriminate).
Defined.

(** ** The mount-table strategy *)

Lemma find_none_of_existsb {A} (f : A -> bool) (l : list A) :
  existsb f l = false -> find f l = None.
Proof.
  induction l as [|a l IH]; cbn; [reflexivity|].
  destruct (f a); [discriminate|]. exact IH.
Qed.

Lemma find_skip {A} (f : A -> bool) (l1 l2 : list A) :
  existsb f l1 = false -> find f (l1 ++ l2) = find f l2.
Proof.
  induction l1 as [|a l1 IH]; cbn; [reflexivity|].
  destruct (f a); [discriminate|]. exact IH.
Qed.

Lemma existsb_rev {A} (f : A -> bool) (l : list A) :
  existsb f (rev l) = existsb f l.
Proof.
  induction l as [|a l IH]; cbn; [reflexivity|].
  rewrite existsb_app, IH. cbn. rewrite orb_false_r. apply orb_comm.
Qed.

(** Scanning backward, the entry found is the last one that matches. *)
Lemma find_backward_last {A} (f : A -> bool) (pre post : list A) (e : A) :
  f e = true -> existsb f post = false ->
  find f (rev (pre ++ e :: post)) = Some e.
Proof.
  intros He Hpost.
  rewrite rev_app_distr. cbn [rev]. rewrite <- app_assoc.
  rewrite find_skip by now rewrite existsb_rev.
  cbn. now rewrite He.
Qed.

Lemma find_backward_none {A} (f : A -> bool) (l : list A) :
  existsb f l = false -> find f (rev l) = None.
Proof.
  intros H. apply find_none_of_existsb. now rewrite existsb_rev.
Qed.

Lemma target_is_has_target (p : string) (fs : libmnt_fs) :
  target_is p fs = true -> exists t, mnt_fs_get_target fs = Some t.
Proof.
  unfold target_is. destruct (mnt_fs_get_target fs) as [t|]; [eauto|discriminate].
Qed.

Lemma dir_to_device_last_match (w : world) (ctl : mountpoint_control)
      (pre post : libmnt_table) (e : libmnt_fs) :
  proc_mountinfo w = Some (pre ++ e :: post)%list ->
  target_is (canonical w (path ctl)) e = true ->
  existsb (target_is (canonical w (path ctl))) post = false ->
  dir_to_device w ctl =
  ([ev_mountinfo; ev_resolve (path ctl)],
   Ret (0, set_dev ctl (mnt_fs_get_devno e))).
Proof.
  intros Htb He Hpost.
  rewrite (dir_to_device_table w ctl _ Htb).
  rewrite (find_backward_last _ pre post e He Hpost).
  destruct (target_is_has_target _ _ He) as [t ->]. reflexivity.
Qed.

(** C3: with a mount table, the entries are searched from the latest mount
    backward and the first one whose target is the canonical path decides:
    the last matching entry of the table gives the device and the answer is
    "mountpoint"; in particular, of two entries with the same target the
    later one wins; and a table without a matching entry gives "not a
    mountpoint". *)
Theorem C3_latest_mount_wins (w : world) (ctl : mountpoint_control)
        (tb : libmnt_table) :
  proc_mountinfo w = Some tb ->
  let matches := target_is (canonical w (path ctl)) in
  (forall pre e post,
      tb = (pre ++ e :: post)%list ->
      matches e = true -> existsb matches post = false ->
      snd (dir_to_device w ctl) = Ret (0, set_dev ctl (mnt_fs_get_devno e))) /\
  (forall pre e1 mid e2 post,
      tb = (pre ++ e1 :: mid ++ e2 :: post)%list ->
      matches e1 = true -> matches e2 = true -> existsb matches post = false ->
      snd (dir_to_device w ctl) = Ret (0, set_dev ctl (mnt_fs_get_devno e2))) /\
  (existsb matches tb = false ->
   snd (dir_to_device w ctl) = Ret (-1, ctl)).
Proof.
  intros Htb matches. subst matches. repeat split.
  - intros pre e post -> He Hpost.
    now rewrite (dir_to_device_last_match w ctl pre post e Htb He Hpost).
  - intros pre e1 mid e2 post E _ He Hpost.
    assert (E' : tb = ((pre ++ e1 :: mid) ++ e2 :: post)%list).
    { rewrite E, <- app_assoc. reflexivity. }
    rewrite E' in Htb.
    now rewrite (dir_to_device_last_match w ctl _ post e2 Htb He Hpost).
  - intros Hnone.
    rewrite (dir_to_device_table w ctl tb Htb). cbn [snd].
    now rewrite (find_backward_none _ tb Hnone).
Qed.

Lemma C3_latest_mount_wins_witness :
  snd (dir_to_device w_stacked (set_path ctl_init "/mnt")) =
  Ret (0, set_dev (set_path ctl_init "/mnt") 2065) /\
  snd (dir_to_device w_stacked (set_path ctl_init "/home")) =
  Ret (-1, set_path ctl_init "/home").
Proof.
  split.
  - apply (proj1 (proj2 (C3_latest_mount_wins w_stacked
                           (set_path ctl_init "/mnt") tb_stacked eq_refl))
             [mk_fs (Some "/") 2049] (mk_fs (Some "/mnt") 2050) []
             (mk_fs (Some "/mnt") 2065) []); reflexivity.
  - apply (proj2 (proj2 (C3_latest_mount_wins w_stacked
                           (set_path ctl_init "/home") tb_stacked eq_refl)));
      reflexivity.
Defined.

(** ** main *)

(** C4: with --nofollow, when the path itself is a symlink, the program
    does nothing after the lstat but print "<path> is not a mountpoint"
    (unless quiet) and return the non-mountpoint code: the mount table, the
    canonical name and the symlink's target are never looked at. *)
Theorem C4_nofollow_symlink (w : world) (inv : invocation) (p : string)
        (s : stat_t) :
  flags_only inv = true ->
  given OPT_NOFOLLOW inv = true ->
  given (chr "x") inv = false ->
  operands inv = [p] ->
  sys_lstat w p = StatOk s ->
  S_ISLNK (st_mode s) = true ->
  main w inv =
  (ev_lstat p ::
     (if given (chr "q") inv then [] else [ev_stdout (not_mountpoint_line p)]),
   Ret MOUNTPOINT_EXIT_NOMNT).
Proof.
  intros Hf Hn Hx Hop Hst Hl.
  rewrite (main_flags_only w inv Hf), Hop, Hx, andb_false_r, inspect_eq.
  unfold target_stat, target_call.
  destruct (parsed_flags inv) as (Ex & _ & En & Eq).
  rewrite Ex, En, Eq, Hx, Hn, Hst, Hl. reflexivity.
Qed.

Lemma C4_nofollow_symlink_witness :
  main w_stacked (mk_inv [OPT_NOFOLLOW] ["/link"]) =
  ([ev_lstat "/link"; ev_stdout (not_mountpoint_line "/link")],
   Ret MOUNTPOINT_EXIT_NOMNT).
Proof.
  apply (C4_nofollow_symlink w_stacked (mk_inv [OPT_NOFOLLOW] ["/link"])
           "/link" (mk_stat 2049 77 S_IFLNK 0)); reflexivity.
Defined.

(** C5: with --devno the program only classifies the stat result.  For a
    block device it prints "major:minor" of [st_rdev] in decimal and
    returns the success code; for anything else it warns "not a block
    device" (unless quiet) and returns the non-mountpoint code.  In both
    cases the only call made is the stat of the path. *)
Theorem C5_devno (w : world) (inv : invocation) (p : string) (s : stat_t) :
  flags_only inv = true ->
  given (chr "x") inv = true ->
  given OPT_NOFOLLOW inv = false ->
  operands inv = [p] ->
  sys_stat w p = StatOk s ->
  main w inv =
  if S_ISBLK (st_mode s) then
    ([ev_stat p;
      ev_stdout (fmt_u (major (st_rdev s)) ++ ":" ++ fmt_u (minor (st_rdev s))
                 ++ nl)],
     Ret EXIT_SUCCESS)
  else
    (ev_stat p ::
       (if given (chr "q") inv then []
        else [ev_stderr (program_invocation_short_name w ++ ": " ++
                         (p ++ ": not a block device") ++ nl)]),
     Ret MOUNTPOINT_EXIT_NOMNT).
Proof.
  intros Hf Hx Hn Hop Hst.
  rewrite (main_flags_only w inv Hf), Hop, Hn, andb_false_l, inspect_eq.
  unfold target_stat, target_call.
  destruct (parsed_flags inv) as (Ex & _ & En & Eq).
  rewrite Ex, En, Eq, Hx, Hn, Hst. reflexivity.
Qed.

Lemma C5_devno_witness :
  main w_stacked (mk_inv [chr "x"] ["/dev/sdb1"]) =
  ([ev_stat "/dev/sdb1"; ev_stdout ("8:17" ++ nl)], Ret EXIT_SUCCESS) /\
  main w_stacked (mk_inv [chr "x"] ["/mnt"]) =
  ([ev_stat "/mnt";
    ev_stderr ("mountpoint: /mnt: not a block device" ++ nl)],
   Ret MOUNTPOINT_EXIT_NOMNT).
Proof.
  split.
  - apply (C5_devno w_stacked (mk_inv [chr "x"] ["/dev/sdb1"]) "/dev/sdb1"
             (mk_stat 5 300 S_IFBLK 2065)); reflexivity.
  - apply (C5_devno w_stacked (mk_inv [chr "x"] ["/mnt"]) "/mnt"
             (dir_stat 2065 2)); reflexivity.
Defined.

(** ** The option loop in general *)

Lemma bind_ret_nil {A B} (a : A) (f : A -> M B) :
  bind ([], Ret a) f = f a.
Proof. unfold bind. destruct (f a); reflexivity. Qed.

Lemma bind_exit {A B} (t : trace) (s : Z) (f : A -> M B) :
  bind (t, Exit s) f = (t, Exit s).
Proof. reflexivity. Qed.

Lemma is_flag_false (c : Z) :
  is_flag c = false ->
  (c =? chr "q") = false /\ (c =? OPT_NOFOLLOW) = false /\
  (c =? chr "d") = false /\ (c =? chr "x") = false.
Proof.
  unfold is_flag. intros H.
  repeat (apply orb_false_iff in H; destruct H as [H ?]). auto.
Qed.

Lemma option_case_flag (w : world) (ctl : mountpoint_control) (c : Z) :
  is_flag c = true ->
  exists ctl', option_case w ctl c = ([], Ret ctl').
Proof.
  unfold is_flag, option_case.
  destruct (c =? chr "q"); [intros _; eexists; reflexivity|].
  destruct (c =? OPT_NOFOLLOW); [intros _; eexists; reflexivity|].
  destruct (c =? chr "d"); [intros _; eexists; reflexivity|].
  destruct (c =? chr "x"); [intros _; eexists; reflexivity|cbn; discriminate].
Qed.

(** An option that is not a flag ends the program in the loop: --help and
    --version with success, anything else as a usage error; only text has
    been written by then. *)
Lemma option_case_exit (w : world) (ctl : mountpoint_control) (c : Z) :
  is_flag c = false ->
  exists t s,
    option_case w ctl c = (t, Exit s) /\
    existsb touches_system t = false /\
    (s = EXIT_FAILURE \/
     s = EXIT_SUCCESS /\ ((chr "h" =? c) || (chr "V" =? c)) = true).
Proof.
  intros H. destruct (is_flag_false c H) as (Hq & Hn & Hd & Hx).
  unfold option_case. rewrite Hq, Hn, Hd, Hx.
  destruct (Z.eqb_spec c (chr "h")) as [->|_].
  - eexists _, _. split; [reflexivity|]. split; [reflexivity|]. right. auto.
  - destruct (Z.eqb_spec c (chr "V")) as [->|_].
    + eexists _, _. split; [reflexivity|]. split; [reflexivity|]. right. auto.
    + eexists _, _. split; [reflexivity|]. split; [reflexivity|]. left. auto.
Qed.

Lemma option_loop_outcome (w : world) (cs : list Z) :
  forall ctl,
    forallb is_flag cs = true \/
    exists t s,
      option_loop w ctl cs = (t, Exit s) /\
      existsb touches_system t = false /\
      (s = EXIT_FAILURE \/
       s = EXIT_SUCCESS /\
       (existsb (Z.eqb (chr "h")) cs || existsb (Z.eqb (chr "V")) cs) = true).
Proof.
  induction cs as [|c cs IH]; intros ctl; [now left|].
  cbn [forallb option_loop existsb].
  destruct (is_flag c) eqn:F.
  - destruct (option_case_flag w ctl c F) as [ctl' ->].
    rewrite bind_ret_nil.
    destruct (IH ctl') as [H|(t & s & E & T & S)]; [now left|right].
    exists t, s. repeat split; trivial.
    destruct S as [S|[S G]]; [now left|right]. split; [exact S|].
    apply orb_true_iff in G as [G|G]; rewrite G, !orb_true_r; reflexivity.
  - right. destruct (option_case_exit w ctl c F) as (t & s & -> & T & S).
    exists t, s. repeat split; trivial.
    destruct S as [S|[S G]]; [now left|right]. split; [exact S|].
    apply orb_true_iff in G as [G|G]; rewrite G; cbn; rewrite ?orb_true_r;
      reflexivity.
Qed.







(** ** Quiet mode *)

(** [dir_to_device] writes nothing. *)
Lemma mount_decision_silent (w : world) (p : string) (s : stat_t) :
  text_of (fst (mount_decision w p s)) = [].
Proof.
  unfold mount_decision.
  set (c0 := set_st (set_path ctl_init p) s).
  destruct (proc_mountinfo w) as [tb|] eqn:Etb.
  - rewrite (dir_to_device_table w c0 tb Etb).
    destruct (find (target_is (canonical w (path c0))) (rev tb)) as [fs|];
      [|reflexivity].
    destruct (mnt_fs_get_target fs); reflexivity.
  - destruct (Z_lt_le_dec (Z.of_nat (String.length (parent_name w (path c0))))
                          PATH_MAX) as [L|L].
    + rewrite (dir_to_device_fallback w Etb c0 L).
      destruct (sys_stat w (parent_name w (path c0))) as [pst|e]; [|reflexivity].
      destruct (negb _ || _); reflexivity.
    + now rewrite (dir_to_device_overlong w Etb c0 L).
Qed.

(** Two control blocks that differ at most in [quiet]. *)
Lemma same_but_quiet_fields (c c' : mountpoint_control) :
  set_quiet c false = set_quiet c' false ->
  path c = path c' /\ dev c = dev c' /\ st c = st c' /\
  dev_devno c = dev_devno c' /\ fs_devno c = fs_devno c' /\
  nofollow c = nofollow c'.
Proof.
  destruct c, c'. unfold set_quiet. ctl_simpl. intros H.
  injection H as -> -> -> -> -> ->. repeat split.
Qed.

Lemma inspect_status_quiet (w : world) (c c' : mountpoint_control) (p : string) :
  set_quiet c false = set_quiet c' false ->
  exit_status (inspect w c p) = exit_status (inspect w c' p).
Proof.
  intros H. destruct (same_but_quiet_fields c c' H) as (_ & _ & _ & Ex & Ed & En).
  rewrite !inspect_eq. unfold target_stat. rewrite <- Ex, <- Ed, <- En.
  destruct (if nofollow c then sys_lstat w p else sys_stat w p) as [s|e].
  - destruct (dev_devno c).
    + destruct (S_ISBLK (st_mode s)); reflexivity.
    + destruct (nofollow c && S_ISLNK (st_mode s)); [reflexivity|].
      destruct (mount_decision w p s) as [t [d|]]; reflexivity.
  - destruct (quiet c), (quiet c'); reflexivity.
Qed.

Lemma option_loop_without_quiet (w : world) (cs : list Z) :
  forall c c',
    set_quiet c false = set_quiet c' false ->
    (exists d d',
        option_loop w c cs = ([], Ret d) /\
        option_loop w c' (filter (fun x => negb (x =? chr "q")) cs)
        = ([], Ret d') /\
        set_quiet d false = set_quiet d' false) \/
    (exists t s,
        option_loop w c cs = (t, Exit s) /\
        option_loop w c' (filter (fun x => negb (x =? chr "q")) cs)
        = (t, Exit s)).
Proof.
  induction cs as [|x cs IH]; intros c c' H.
  - left. exists c, c'. auto.
  - cbn [option_loop filter].
    destruct (Z.eqb_spec x (chr "q")) as [->|Nq].
    + cbn [negb]. change (option_case w c (chr "q")) with
        (@ret mountpoint_control (set_quiet c true)).
      unfold ret. rewrite bind_ret_nil.
      apply IH. rewrite <- H. destruct c; reflexivity.
    + cbn [negb option_loop].
      apply Z.eqb_neq in Nq.
      unfold option_case. rewrite Nq.
      destruct (x =? OPT_NOFOLLOW);
        [|destruct (x =? chr "d");
          [|destruct (x =? chr "x");
            [|destruct (x =? chr "h"); [|destruct (x =? chr "V")]]]].
      1-3: unfold ret; rewrite !bind_ret_nil; apply IH;
        destruct c, c'; unfold set_quiet in *; ctl_simpl;
        injection H as -> -> -> -> -> ->; reflexivity.
      all: right; eexists _, _; split; reflexivity.
Qed.

Lemma main_bind (w : world) (inv : invocation) :
  main w inv =
  bind (option_loop w ctl_init (getopt_results inv))
       (fun ctl =>
          match operands inv with
          | [p] =>
              if nofollow ctl && dev_devno ctl then
                errx w EXIT_FAILURE "--devno and --nofollow are mutually exclusive"
              else inspect w ctl p
          | _ => warnx w "bad usage" ;;; errtryhelp w EXIT_FAILURE
          end).
Proof. reflexivity. Qed.

Lemma exit_status_quiet (w : world) (inv : invocation) :
  exit_status (main w inv) = exit_status (main w (without_quiet inv)).
Proof.
  rewrite !main_bind. unfold without_quiet. cbn [getopt_results operands].
  destruct (option_loop_without_quiet w (getopt_results inv) ctl_init ctl_init
              eq_refl) as [(d & d' & -> & -> & H)|(t & s & -> & ->)].
  - rewrite !bind_ret_nil.
    destruct (same_but_quiet_fields d d' H) as (_ & _ & _ & Ex & _ & En).
    rewrite <- Ex, <- En.
    destruct (operands inv) as [|p [|q l]]; try reflexivity.
    destruct (nofollow d && dev_devno d); [reflexivity|].
    now apply inspect_status_quiet.
  - reflexivity.
Qed.

(** C6: quiet mode never changes the exit status, but it does not silence
    everything, although the usage text (line 119) says that -q prints
    nothing: the device line of --fs-devno and of --devno is written under
    -q as well, here for -q -d on a mountpoint and for -q -x on a block
    device. *)
Theorem C6_quiet_status_and_device_line :
  (forall w inv,
      exit_status (main w inv) = exit_status (main w (without_quiet inv))) /\
  (given (chr "q") (mk_inv [chr "q"; chr "d"] ["/mnt"]) = true /\
   main w_stacked (mk_inv [chr "q"; chr "d"] ["/mnt"]) =
   ([ev_stat "/mnt"; ev_mountinfo; ev_resolve "/mnt";
     ev_stdout ("8:17" ++ nl)], Ret EXIT_SUCCESS)) /\
  (given (chr "q") (mk_inv [chr "q"; chr "x"] ["/dev/sdb1"]) = true /\
   main w_stacked (mk_inv [chr "q"; chr "x"] ["/dev/sdb1"]) =
   ([ev_stat "/dev/sdb1"; ev_stdout ("8:17" ++ nl)], Ret EXIT_SUCCESS)).
Proof.
  split; [exact exit_status_quiet|].
  repeat split.
Qed.

(** ** Exit codes *)

Lemma main_status_flags_only (w : world) (inv : invocation) :
  flags_only inv = true ->
  exit_status (main w inv) =
  match operands inv with
  | [p] =>
      if given OPT_NOFOLLOW inv && given (chr "x") inv then EXIT_FAILURE
      else
        match target_stat w (parsed inv) p with
        | StatErr _ => EXIT_FAILURE
        | StatOk s =>
            if given (chr "x") inv then
              if S_ISBLK (st_mode s) then EXIT_SUCCESS
              else MOUNTPOINT_EXIT_NOMNT
            else if given OPT_NOFOLLOW inv && S_ISLNK (st_mode s)
                 then MOUNTPOINT_EXIT_NOMNT
                 else match snd (mount_decision w p s) with
                      | Some _ => EXIT_SUCCESS
                      | None => MOUNTPOINT_EXIT_NOMNT
                      end
        end
  | _ => EXIT_FAILURE
  end.
Proof.
  intros Hf. rewrite (main_flags_only w inv Hf).
  destruct (operands inv) as [|p [|q l]]; try reflexivity.
  destruct (given OPT_NOFOLLOW inv && given (chr "x") inv); [reflexivity|].
  rewrite inspect_eq.
  destruct (parsed_flags inv) as (Ex & _ & En & _). rewrite Ex, En.
  destruct (target_stat w (parsed inv) p) as [s|e].
  - destruct (given (chr "x") inv).
    + destruct (S_ISBLK (st_mode s)); reflexivity.
    + destruct (given OPT_NOFOLLOW inv && S_ISLNK (st_mode s)); [reflexivity|].
      destruct (mount_decision w p s) as [t [d|]]; reflexivity.
  - destruct (quiet (parsed inv)); reflexivity.
Qed.

(** C8: the three exit codes are pairwise distinct and every run ends with
    one of them.  On an accepted command line: a wrong number of operands,
    --devno with --nofollow, and a failing stat give the generic failure
    code; --devno on something that is not a block device, a symlink under
    --nofollow, and a negative answer of [dir_to_device] give the
    non-mountpoint code; the rest is success. *)
Theorem C8_exit_codes :
  (EXIT_SUCCESS <> MOUNTPOINT_EXIT_NOMNT /\
   EXIT_FAILURE <> MOUNTPOINT_EXIT_NOMNT /\
   EXIT_SUCCESS <> EXIT_FAILURE) /\
  (forall w inv,
      exit_status (main w inv) = EXIT_SUCCESS \/
      exit_status (main w inv) = MOUNTPOINT_EXIT_NOMNT \/
      exit_status (main w inv) = EXIT_FAILURE) /\
  (forall w inv,
      flags_only inv = true ->
      exit_status (main w inv) =
      match operands inv with
      | [p] =>
          if given OPT_NOFOLLOW inv && given (chr "x") inv then EXIT_FAILURE
          else
            match target_stat w (parsed inv) p with
            | StatErr _ => EXIT_FAILURE
            | StatOk s =>
                if given (chr "x") inv then
                  if S_ISBLK (st_mode s) then EXIT_SUCCESS
                  else MOUNTPOINT_EXIT_NOMNT
                else if given OPT_NOFOLLOW inv && S_ISLNK (st_mode s)
                     then MOUNTPOINT_EXIT_NOMNT
                     else match snd (dir_to_device w (set_st (set_path
                                                       (parsed inv) p) s)) with
                          | Ret (0, _) => EXIT_SUCCESS
                          | _ => MOUNTPOINT_EXIT_NOMNT
                          end
            end
      | _ => EXIT_FAILURE
      end).
Proof.
  split; [repeat split; discriminate|]. split.
  - intros w inv.
    destruct (option_loop_outcome w (getopt_results inv) ctl_init)
      as [F|(t & s & E & _ & S)].
    + rewrite (main_status_flags_only w inv F).
      destruct (operands inv) as [|p [|q l]]; auto.
      destruct (given OPT_NOFOLLOW inv && given (chr "x") inv); auto.
      destruct (target_stat w (parsed inv) p) as [s|e]; auto.
      destruct (given (chr "x") inv).
      * destruct (S_ISBLK (st_mode s)); auto.
      * destruct (given OPT_NOFOLLOW inv && S_ISLNK (st_mode s)); auto.
        destruct (snd (mount_decision w p s)); auto.
    + rewrite main_bind, E, bind_exit. unfold exit_status. cbn [snd].
      destruct S as [S|[S _]]; auto.
  - intros w inv F. rewrite (main_status_flags_only w inv F).
    destruct (operands inv) as [|p [|q l]]; try reflexivity.
    destruct (given OPT_NOFOLLOW inv && given (chr "x") inv); [reflexivity|].
    destruct (target_stat w (parsed inv) p) as [s|e]; [|reflexivity].
    destruct (given (chr "x") inv); [reflexivity|].
    destruct (given OPT_NOFOLLOW inv && S_ISLNK (st_mode s)); [reflexivity|].
    rewrite dir_to_device_decision. ctl_simpl. cbn [snd].
    destruct (snd (mount_decision w p s)); reflexivity.
Qed.

Lemma C8_exit_codes_witness :
  exit_status (main w_stacked (mk_inv [] ["/mnt"])) = EXIT_SUCCESS /\
  exit_status (main w_stacked (mk_inv [] ["/home"])) = EXIT_FAILURE /\
  exit_status (main w_stacked (mk_inv [chr "x"] ["/mnt"]))
  = MOUNTPOINT_EXIT_NOMNT /\
  exit_status (main w_stacked (mk_inv [chr "d"] [])) = EXIT_FAILURE.
Proof.
  refine (conj _ (conj _ (conj _ _))).
  - exact (proj2 (proj2 C8_exit_codes) w_stacked (mk_inv [] ["/mnt"]) eq_refl).
  - exact (proj2 (proj2 C8_exit_codes) w_stacked (mk_inv [] ["/home"]) eq_refl).
  - exact (proj2 (proj2 C8_exit_codes) w_stacked (mk_inv [chr "x"] ["/mnt"])
             eq_refl).
  - exact (proj2 (proj2 C8_exit_codes) w_stacked (mk_inv [chr "d"] []) eq_refl).
Defined.

(** ** The two strategies compared *)

Lemma detect_via_table_eq (w : world) (tb : libmnt_table)
      (ctl : mountpoint_control) :
  detect_via_table w tb ctl = is_mount_target w tb (path ctl).
Proof.
  unfold detect_via_table, verdict, is_mount_target.
  rewrite (dir_to_device_table (with_mountinfo w (Some tb)) ctl tb eq_refl).
  cbn [snd].
  change (canonical (with_mountinfo w (Some tb)) (path ctl))
    with (canonical w (path ctl)).
  rewrite <- (existsb_rev _ tb).
  destruct (find _ (rev tb)) as [fs|] eqn:E.
  - apply find_some in E as [Hin Hm].
    destruct (target_is_has_target _ _ Hm) as [t ->].
    symmetry. apply existsb_exists. eauto.
  - symmetry. destruct (existsb _ (rev tb)) eqn:X; [|reflexivity].
    apply existsb_exists in X as (fs & Hin & Hm).
    now rewrite (find_none _ _ E fs Hin) in Hm.
Qed.

Lemma detect_via_fallback_eq (w : world) (ctl : mountpoint_control) :
  detect_via_fallback w ctl =
  match sys_stat w (parent_name w (path ctl)) with
  | StatOk pst =>
      negb (st_dev (st ctl) =? st_dev pst) || (st_ino (st ctl) =? st_ino pst)
  | StatErr _ => false
  end.
Proof.
  unfold detect_via_fallback, verdict.
  destruct (Z_lt_le_dec (Z.of_nat (String.length (parent_name w (path ctl))))
                        PATH_MAX) as [L|L].
  - rewrite (dir_to_device_fallback (with_mountinfo w None) eq_refl ctl L).
    cbn [snd].
    change (sys_stat (with_mountinfo w None)
                     (parent_name (with_mountinfo w None) (path ctl)))
      with (sys_stat w (parent_name w (path ctl))).
    destruct (sys_stat w (parent_name w (path ctl))) as [pst|e]; [|reflexivity].
    destruct (negb _ || _); reflexivity.
  - rewrite (dir_to_device_overlong (with_mountinfo w None) eq_refl ctl L).
    cbn [snd]. unfold sys_stat, name_too_long.
    apply Z.leb_le in L. now rewrite L.
Qed.

(** C9, as the code has it: the two strategies agree on ordinary mounts and
    on ordinary directories.  When the parent can be statted, a mount
    target that is not a bind mount is a mountpoint for both, and a path
    that is no mount target and lies on its parent's device (with another
    inode) is a mountpoint for neither. *)
Theorem C9_strategies_agree (w : world) (tb : libmnt_table)
        (ctl : mountpoint_control) (pst : stat_t) :
  sys_stat w (parent_name w (path ctl)) = StatOk pst ->
  (is_mount_target w tb (path ctl) = true ->
   is_bind_mount w tb ctl = false ->
   detect_via_table w tb ctl = true /\ detect_via_fallback w ctl = true) /\
  (is_mount_target w tb (path ctl) = false ->
   same_device_as_parent w ctl = true ->
   detect_via_table w tb ctl = false /\ detect_via_fallback w ctl = false).
Proof.
  intros Hp. rewrite detect_via_table_eq, detect_via_fallback_eq.
  unfold is_bind_mount, same_device_as_parent. rewrite Hp.
  split.
  - intros -> H. split; [reflexivity|]. cbn [andb] in H.
    destruct (st_dev (st ctl) =? st_dev pst); [|reflexivity].
    cbn in *. now apply negb_false_iff in H.
  - intros -> H. split; [reflexivity|].
    apply andb_true_iff in H as [-> H]. cbn.
    now apply negb_true_iff in H.
Qed.

Lemma C9_strategies_agree_witness :
  detect_via_table w_fallback tb_stacked
    (set_st (set_path ctl_init "/mnt") (dir_stat 2065 2)) = true /\
  detect_via_fallback w_fallback
    (set_st (set_path ctl_init "/mnt") (dir_stat 2065 2)) = true.
Proof.
  apply (proj1 (C9_strategies_agree w_fallback tb_stacked
                  (set_st (set_path ctl_init "/mnt") (dir_stat 2065 2))
                  (dir_stat 2049 2) eq_refl)); reflexivity.
Defined.

(** C9, as the spec states it, fails: /data is not a mount of any kind, so
    no bind mount, yet it lies on a device of its own; the mount table says
    "not a mountpoint" and the fallback says "mountpoint". *)
Lemma C9_counterexample :
  is_bind_mount w_subvolume tb_root_only
    (set_st (set_path ctl_init "/data") (dir_stat 54 256)) = false /\
  detect_via_table w_subvolume tb_root_only
    (set_st (set_path ctl_init "/data") (dir_stat 54 256)) = false /\
  detect_via_fallback w_subvolume
    (set_st (set_path ctl_init "/data") (dir_stat 54 256)) = true.
Proof.
  repeat split.
Qed.

(** * Further properties of the program *)

(** ** The option loop, once more *)

Lemma with_flags_app (ctl : mountpoint_control) (l1 l2 : list Z) :
  with_flags (with_flags ctl l1) l2 = with_flags ctl (l1 ++ l2).
Proof.
  unfold with_flags. ctl_simpl. rewrite !existsb_app, !orb_assoc. reflexivity.
Qed.

Lemma option_case_flag_eq (w : world) (ctl : mountpoint_control) (c : Z) :
  is_flag c = true ->
  option_case w ctl c = ([], Ret (with_flags ctl [c])).
Proof.
  unfold is_flag, option_case.
  destruct (Z.eqb_spec c (chr "q")) as [->|_];
    [|destruct (Z.eqb_spec c OPT_NOFOLLOW) as [->|_];
      [|destruct (Z.eqb_spec c (chr "d")) as [->|_];
        [|destruct (Z.eqb_spec c (chr "x")) as [->|_];
          [|cbn; discriminate]]]].
  all: intros _; destruct ctl as [p d s a b n q]; unfold with_flags; cbn;
    destruct a, b, n, q; reflexivity.
Qed.

Lemma option_loop_app (w : world) (pre cs : list Z) :
  forallb is_flag pre = true ->
  forall ctl,
    option_loop w ctl (pre ++ cs) = option_loop w (with_flags ctl pre) cs.
Proof.
  induction pre as [|c pre IH]; intros H ctl.
  - cbn [app]. f_equal. destruct ctl; unfold with_flags; cbn.
    now rewrite !orb_false_r.
  - cbn [forallb] in H. apply andb_true_iff in H as [Hc Hpre].
    cbn [app option_loop]. rewrite (option_case_flag_eq w ctl c Hc).
    rewrite bind_ret_nil, (IH Hpre), with_flags_app. reflexivity.
Qed.

(** What an option that is no flag does, whatever the control block. *)
Lemma option_case_other (w : world) (ctl : mountpoint_control) (c : Z) :
  is_flag c = false ->
  option_case w ctl c =
  if c =? chr "h" then usage w
  else if c =? chr "V" then print_version w EXIT_SUCCESS
       else errtryhelp w EXIT_FAILURE.
Proof.
  intros H. destruct (is_flag_false c H) as (Hq & Hn & Hd & Hx).
  unfold option_case. now rewrite Hq, Hn, Hd, Hx.
Qed.

(** Every option list is a run of flags, or a run of flags followed by a
    first option that is none. *)
Lemma first_other_option (cs : list Z) :
  forallb is_flag cs = true \/
  exists pre c rest,
    cs = (pre ++ c :: rest)%list /\
    forallb is_flag pre = true /\ is_flag c = false.
Proof.
  induction cs as [|c cs IH]; [now left|].
  destruct (is_flag c) eqn:F.
  - destruct IH as [H|(pre & c' & rest & -> & Hpre & Hc')].
    + left. cbn. now rewrite F.
    + right. exists (c :: pre), c', rest. cbn. rewrite F. auto.
  - right. exists [], c, cs. auto.
Qed.

Lemma main_first_other_option (w : world) (pre rest : list Z)
      (c : Z) (ops : list string) :
  forallb is_flag pre = true ->
  is_flag c = false ->
  main w (mk_inv (pre ++ c :: rest) ops) =
  if c =? chr "h" then usage w
  else if c =? chr "V" then print_version w EXIT_SUCCESS
       else errtryhelp w EXIT_FAILURE.
Proof.
  intros Hpre Hc. rewrite main_bind. cbn [getopt_results operands].
  rewrite (option_loop_app w pre (c :: rest) Hpre). cbn [option_loop].
  rewrite (option_case_other w _ c Hc).
  destruct (c =? chr "h"); [reflexivity|].
  destruct (c =? chr "V"); reflexivity.
Qed.

(** X1: the first option that is not a flag decides the run, whatever
    comes after it on the command line and whatever the operands are:
    --help prints the usage and --version the version, both leaving with
    success, and any other option is a usage error. *)
Theorem X1_first_other_option_decides (w : world) (pre rest : list Z)
        (c : Z) (ops : list string) :
  forallb is_flag pre = true ->
  is_flag c = false ->
  main w (mk_inv (pre ++ c :: rest) ops) =
  if c =? chr "h" then usage w
  else if c =? chr "V" then print_version w EXIT_SUCCESS
       else errtryhelp w EXIT_FAILURE.
Proof. exact (main_first_other_option w pre rest c ops). Qed.

Lemma X1_first_other_option_decides_witness :
  main w_stacked (mk_inv [chr "q"; chr "h"; chr "x"] ["/mnt"; "/home"]) =
  usage w_stacked.
Proof.
  apply (X1_first_other_option_decides w_stacked [chr "q"] [chr "x"]
           (chr "h") ["/mnt"; "/home"]); reflexivity.
Defined.

(** X2: results and diagnostics keep to their streams.  A run that ends
    with the generic failure code has written nothing to standard output,
    and a run that ends with success has written nothing to standard
    error. *)
Theorem X2_streams (w : world) (inv : invocation) :
  (exit_status (main w inv) = EXIT_FAILURE ->
   existsb is_stdout (events (main w inv)) = false) /\
  (exit_status (main w inv) = EXIT_SUCCESS ->
   existsb is_stderr (events (main w inv)) = false).
Proof.
  destruct inv as [cs ops].
  destruct (first_other_option cs) as [F|(pre & c & rest & -> & Hpre & Hc)].
  - rewrite (main_flags_only w (mk_inv cs ops) F). cbn [operands].
    destruct ops as [|p [|p' l]]; try (split; [reflexivity|discriminate]).
    destruct (given OPT_NOFOLLOW (mk_inv cs [p]) && given (chr "x") (mk_inv cs [p]));
      [split; [reflexivity|discriminate]|].
    rewrite inspect_eq. set (ctl := parsed (mk_inv cs [p])).
    assert (Tc : is_stdout (target_call ctl p) = false /\
                 is_stderr (target_call ctl p) = false).
    { unfold target_call. destruct (nofollow ctl); split; reflexivity. }
    destruct Tc as [To Te].
    destruct (target_stat w ctl p) as [s|e].
    + destruct (dev_devno ctl).
      * destruct (S_ISBLK (st_mode s)).
        -- split; [discriminate|intros _].
           unfold events. cbn [fst existsb]. now rewrite Te.
        -- split; discriminate.
      * destruct (nofollow ctl && S_ISLNK (st_mode s)); [split; discriminate|].
        pose proof (mount_decision_silent w p s) as Ms.
        destruct (mount_decision w p s) as [t [d|]]; [|split; discriminate].
        split; [discriminate|intros _].
        unfold events. cbn [fst app existsb]. rewrite Te, existsb_app.
        assert (Et : existsb is_stderr t = false).
        { cbn [fst] in Ms. unfold text_of in Ms.
          destruct (existsb is_stderr t) eqn:X; [|reflexivity].
          apply existsb_exists in X as (ev & Hin & Hev).
          assert (Hf : In ev (filter is_text t)).
          { apply filter_In. split; [exact Hin|]. now destruct ev. }
          rewrite Ms in Hf. destruct Hf. }
        rewrite Et. cbn [orb].
        destruct (fs_devno ctl); [reflexivity|destruct (quiet ctl); reflexivity].
    + destruct (quiet ctl); (split; [intros _|discriminate]);
        unfold events; cbn [fst existsb]; now rewrite To.
  - rewrite (main_first_other_option w pre rest c ops Hpre Hc).
    destruct (c =? chr "h"); [split; [discriminate|reflexivity]|].
    destruct (c =? chr "V"); split; (discriminate || reflexivity).
Qed.

Lemma X2_streams_witness :
  existsb is_stdout (events (main w_stacked (mk_inv [] ["/home"]))) = false /\
  existsb is_stderr (events (main w_stacked (mk_inv [chr "d"] ["/mnt"]))) = false.
Proof.
  split.
  - apply (proj1 (X2_streams w_stacked (mk_inv [] ["/home"]))); reflexivity.
  - apply (proj2 (X2_streams w_stacked (mk_inv [chr "d"] ["/mnt"])));
      reflexivity.
Defined.

(** ** Flags *)

Lemma existsb_same_members {A} (f : A -> bool) (l l' : list A) :
  (forall a, In a l <-> In a l') -> existsb f l = existsb f l'.
Proof.
  intros H.
  destruct (existsb f l) eqn:E.
  - apply existsb_exists in E as (a & Hin & Ha).
    symmetry. apply existsb_exists. exists a. split; [now apply H|exact Ha].
  - destruct (existsb f l') eqn:E'; [|reflexivity].
    apply existsb_exists in E' as (a & Hin & Ha).
    assert (X : existsb f l = true).
    { apply existsb_exists. exists a. split; [now apply H|exact Ha]. }
    congruence.
Qed.

(** X3: flag options may come in any order and any number of times: two
    accepted command lines that name the same flags and the same operands
    give the same run. *)
Theorem X3_flags_order_and_repetition (w : world) (inv inv' : invocation) :
  flags_only inv = true ->
  flags_only inv' = true ->
  (forall c, In c (getopt_results inv) <-> In c (getopt_results inv')) ->
  operands inv = operands inv' ->
  main w inv = main w inv'.
Proof.
  intros F F' Hm Hop.
  assert (P : parsed inv = parsed inv').
  { unfold parsed, with_flags.
    now rewrite !(existsb_same_members _ _ _ Hm). }
  rewrite (main_flags_only w inv F), (main_flags_only w inv' F').
  unfold given. rewrite !(existsb_same_members _ _ _ Hm), Hop, P.
  reflexivity.
Qed.

Lemma X3_flags_order_and_repetition_witness :
  main w_stacked (mk_inv [chr "q"; chr "d"; chr "q"] ["/mnt"]) =
  main w_stacked (mk_inv [chr "d"; chr "q"] ["/mnt"]).
Proof.
  apply (X3_flags_order_and_repetition w_stacked
           (mk_inv [chr "q"; chr "d"; chr "q"] ["/mnt"])
           (mk_inv [chr "d"; chr "q"] ["/mnt"])); try reflexivity.
  intros c; cbn; tauto.
Defined.

(** X4: a command line without exactly one operand is a usage error: "bad
    usage" and the hint go to standard error, also under -q, the status is
    the generic failure code, and nothing has been looked at.  The operand
    count is checked before the flags are, so this is also the answer when
    --devno and --nofollow are both given. *)
Theorem X4_operand_count (w : world) (inv : invocation) :
  flags_only inv = true ->
  List.length (operands inv) <> 1%nat ->
  main w inv =
  ([ev_stderr (program_invocation_short_name w ++ ": bad usage" ++ nl);
    ev_stderr ("Try '" ++ program_invocation_short_name w
               ++ " --help' for more information." ++ nl)],
   Exit EXIT_FAILURE).
Proof.
  intros F L. rewrite (main_flags_only w inv F).
  destruct (operands inv) as [|p [|p' l]]; try reflexivity.
  now elim L.
Qed.

Lemma X4_operand_count_witness :
  main w_stacked (mk_inv [chr "q"; chr "x"; OPT_NOFOLLOW] ["/mnt"; "/home"]) =
  ([ev_stderr ("mountpoint: bad usage" ++ nl);
    ev_stderr ("Try 'mountpoint --help' for more information." ++ nl)],
   Exit EXIT_FAILURE).
Proof.
  apply (X4_operand_count w_stacked
           (mk_inv [chr "q"; chr "x"; OPT_NOFOLLOW] ["/mnt"; "/home"]));
    [reflexivity|cbn; discriminate].
Defined.

(** X5: when the stat of the path fails, nothing else is looked at and the
    status is the generic failure code; the diagnostic "<program>: <path>:
    <error text>" goes to standard error unless -q is given.  The call is
    lstat under --nofollow and stat otherwise. *)
Theorem X5_stat_failure (w : world) (inv : invocation) (p : string) (e : Z) :
  flags_only inv = true ->
  operands inv = [p] ->
  given OPT_NOFOLLOW inv && given (chr "x") inv = false ->
  (if given OPT_NOFOLLOW inv then sys_lstat w p else sys_stat w p) = StatErr e ->
  let call := if given OPT_NOFOLLOW inv then ev_lstat p else ev_stat p in
  main w inv =
  if given (chr "q") inv then ([call], Ret EXIT_FAILURE)
  else ([call;
         ev_stderr (program_invocation_short_name w ++ ": " ++
                    (p ++ ": " ++ strerror w e) ++ nl)],
        Exit EXIT_FAILURE).
Proof.
  intros F Hop Hc Hst call. subst call.
  rewrite (main_flags_only w inv F), Hop, Hc, inspect_eq.
  unfold target_stat, target_call.
  destruct (parsed_flags inv) as (_ & _ & En & Eq). rewrite En, Eq, Hst.
  reflexivity.
Qed.

Lemma X5_stat_failure_witness :
  main w_stacked (mk_inv [] ["/home"]) =
  ([ev_stat "/home";
    ev_stderr ("mountpoint: /home: No such file or directory" ++ nl)],
   Exit EXIT_FAILURE).
Proof.
  apply (X5_stat_failure w_stacked (mk_inv [] ["/home"]) "/home" ENOENT);
    reflexivity.
Defined.

(** ** What main prints after the detector has answered *)

Lemma main_detect (w : world) (inv : invocation) (p : string) (s : stat_t) :
  flags_only inv = true ->
  operands inv = [p] ->
  given (chr "x") inv = false ->
  target_stat w (parsed inv) p = StatOk s ->
  given OPT_NOFOLLOW inv && S_ISLNK (st_mode s) = false ->
  main w inv =
  match mount_decision w p s with
  | (t, None) =>
      ((target_call (parsed inv) p :: t) ++
         (if given (chr "q") inv then []
          else [ev_stdout (not_mountpoint_line p)]),
       Ret MOUNTPOINT_EXIT_NOMNT)%list
  | (t, Some d) =>
      ((target_call (parsed inv) p :: t) ++
         (if given (chr "d") inv then [ev_stdout (devno_line d)]
          else if given (chr "q") inv then []
               else [ev_stdout (mountpoint_line p)]),
       Ret EXIT_SUCCESS)%list
  end.
Proof.
  intros F Hop Hx Hst Hl.
  rewrite (main_flags_only w inv F), Hop, Hx, andb_false_r, inspect_eq, Hst.
  destruct (parsed_flags inv) as (Ex & Ed & En & Eq).
  rewrite Ex, Ed, En, Eq, Hx, Hl. reflexivity.
Qed.

(** X6: after a successful stat (and unless the path is a symlink under
    --nofollow) the calls of [dir_to_device] follow the stat and its answer
    decides the rest: on 0 the program prints the device stored in the
    control block when --fs-devno is given, else "<path> is a mountpoint"
    unless quiet, and returns success; on any other value it prints
    "<path> is not a mountpoint" unless quiet and returns the
    non-mountpoint code. *)
Theorem X6_detection_output (w : world) (inv : invocation) (p : string)
        (s : stat_t) (t : trace) (rc : Z) (ctl' : mountpoint_control) :
  flags_only inv = true ->
  operands inv = [p] ->
  given (chr "x") inv = false ->
  target_stat w (parsed inv) p = StatOk s ->
  given OPT_NOFOLLOW inv && S_ISLNK (st_mode s) = false ->
  dir_to_device w (set_st (set_path (parsed inv) p) s) = (t, Ret (rc, ctl')) ->
  main w inv =
  ((target_call (parsed inv) p :: t) ++
     (if rc =? 0 then
        if given (chr "d") inv then [ev_stdout (devno_line (dev ctl'))]
        else if given (chr "q") inv then []
             else [ev_stdout (p ++ " is a mountpoint" ++ nl)]
      else if given (chr "q") inv then []
           else [ev_stdout (p ++ " is not a mountpoint" ++ nl)]),
   Ret (if rc =? 0 then EXIT_SUCCESS else MOUNTPOINT_EXIT_NOMNT))%list.
Proof.
  intros F Hop Hx Hst Hl D.
  rewrite (main_detect w inv p s F Hop Hx Hst Hl).
  rewrite dir_to_device_decision in D. ctl_simpl.
  destruct (mount_decision w p s) as [t0 [d|]]; cbn [fst snd] in D;
    injection D as -> <- <-; reflexivity.
Qed.

Lemma X6_detection_output_witness :
  main w_stacked (mk_inv [] ["/mnt"]) =
  ([ev_stat "/mnt"; ev_mountinfo; ev_resolve "/mnt";
    ev_stdout ("/mnt is a mountpoint" ++ nl)],
   Ret EXIT_SUCCESS).
Proof.
  apply (X6_detection_output w_stacked (mk_inv [] ["/mnt"]) "/mnt"
           (dir_stat 2065 2) [ev_mountinfo; ev_resolve "/mnt"] 0
           (set_dev (set_st (set_path (parsed (mk_inv [] ["/mnt"])) "/mnt")
                            (dir_stat 2065 2)) 2065)); reflexivity.
Defined.

(** X7: with a mount table, --fs-devno prints the device number of the
    table entry that was found, the last one mounted on the path, and not
    the [st_dev] of the stat buffer; nothing else is written and the status
    is success. *)
Theorem X7_fs_devno_from_table (w : world) (inv : invocation) (p : string)
        (s : stat_t) (pre post : libmnt_table) (e : libmnt_fs) :
  flags_only inv = true ->
  operands inv = [p] ->
  given (chr "x") inv = false ->
  given (chr "d") inv = true ->
  target_stat w (parsed inv) p = StatOk s ->
  given OPT_NOFOLLOW inv && S_ISLNK (st_mode s) = false ->
  proc_mountinfo w = Some (pre ++ e :: post)%list ->
  target_is (canonical w p) e = true ->
  existsb (target_is (canonical w p)) post = false ->
  text_of (events (main w inv)) =
  [ev_stdout (fmt_u (major (mnt_fs_get_devno e)) ++ ":" ++
              fmt_u (minor (mnt_fs_get_devno e)) ++ nl)] /\
  snd (main w inv) = Ret EXIT_SUCCESS.
Proof.
  intros F Hop Hx Hd Hst Hl Htb He Hpost.
  rewrite (main_detect w inv p s F Hop Hx Hst Hl), Hd.
  unfold mount_decision.
  rewrite (dir_to_device_last_match w (set_st (set_path ctl_init p) s)
             pre post e Htb He Hpost).
  unfold events, text_of, target_call. cbn [fst snd].
  destruct (nofollow (parsed inv)); split; reflexivity.
Qed.

Lemma X7_fs_devno_from_table_witness :
  text_of (events (main w_stacked (mk_inv [chr "d"] ["/mnt"]))) =
  [ev_stdout ("8:17" ++ nl)] /\
  snd (main w_stacked (mk_inv [chr "d"] ["/mnt"])) = Ret EXIT_SUCCESS.
Proof.
  apply (X7_fs_devno_from_table w_stacked (mk_inv [chr "d"] ["/mnt"]) "/mnt"
           (dir_stat 2065 2)
           [mk_fs (Some "/") 2049; mk_fs (Some "/mnt") 2050] []
           (mk_fs (Some "/mnt") 2065)); reflexivity.
Defined.

(** X8: without a mount table, --fs-devno on a device boundary prints the
    [st_dev] of the path itself, after the table load, the resolve call and
    the one stat of "<canonical>/..". *)
Theorem X8_fs_devno_from_stat (w : world) (inv : invocation) (p : string)
        (s pst : stat_t) :
  flags_only inv = true ->
  operands inv = [p] ->
  given (chr "x") inv = false ->
  given (chr "d") inv = true ->
  target_stat w (parsed inv) p = StatOk s ->
  given OPT_NOFOLLOW inv && S_ISLNK (st_mode s) = false ->
  proc_mountinfo w = None ->
  sys_stat w (canonical w p ++ "/..") = StatOk pst ->
  negb (st_dev s =? st_dev pst) || (st_ino s =? st_ino pst) = true ->
  main w inv =
  ([target_call (parsed inv) p; ev_mountinfo; ev_resolve p;
    ev_stat (canonical w p ++ "/..");
    ev_stdout (fmt_u (major (st_dev s)) ++ ":" ++ fmt_u (minor (st_dev s))
               ++ nl)],
   Ret EXIT_SUCCESS).
Proof.
  intros F Hop Hx Hd Hst Hl Htb Hp Hb.
  rewrite (main_detect w inv p s F Hop Hx Hst Hl), Hd.
  unfold mount_decision.
  rewrite (dir_to_device_fallback w Htb (set_st (set_path ctl_init p) s)
             (sys_stat_ok_fits _ _ _ Hp)).
  ctl_simpl. fold (parent_name w p) in Hp |- *. rewrite Hp, Hb. reflexivity.
Qed.

Lemma X8_fs_devno_from_stat_witness :
  main w_fallback (mk_inv [chr "d"] ["/mnt"]) =
  ([ev_stat "/mnt"; ev_mountinfo; ev_resolve "/mnt"; ev_stat "/mnt/..";
    ev_stdout ("8:17" ++ nl)], Ret EXIT_SUCCESS).
Proof.
  apply (X8_fs_devno_from_stat w_fallback (mk_inv [chr "d"] ["/mnt"]) "/mnt"
           (dir_stat 2065 2) (dir_stat 2049 2)); reflexivity.
Defined.

(** ** dir_to_device as a whole *)

(** X9: [dir_to_device] always returns, with 0 or -1.  It never changes
    the path, the stat buffer or a flag of the control block; it writes
    [dev] only when it returns 0 and leaves the block as it was when it
    returns -1. *)
Theorem X9_dir_to_device_frame (w : world) (ctl : mountpoint_control) :
  exists t,
    dir_to_device w ctl = (t, Ret (-1, ctl)) \/
    exists d, dir_to_device w ctl = (t, Ret (0, set_dev ctl d)).
Proof.
  rewrite dir_to_device_decision.
  destruct (mount_decision w (path ctl) (st ctl)) as [t [d|]]; exists t;
    cbn [fst snd]; eauto.
Qed.

(** X10: the calls [dir_to_device] makes.  It loads the mount table and has
    the path canonicalized, by the lookup when the table loaded and by
    [mnt_resolve_path] when it did not.  The one stat of its own is that of
    "<canonical>/.." in the fallback, left out when the name does not fit
    the buffer.  It writes nothing. *)
Theorem X10_dir_to_device_calls (w : world) (ctl : mountpoint_control) :
  events (dir_to_device w ctl) =
  ([ev_mountinfo; ev_resolve (path ctl)] ++
   match proc_mountinfo w with
   | Some _ => []
   | None =>
       if PATH_MAX <=? Z.of_nat (String.length (canonical w (path ctl) ++ "/.."))
       then []
       else [ev_stat (canonical w (path ctl) ++ "/..")]
   end)%list.
Proof.
  destruct (proc_mountinfo w) as [tb|] eqn:Etb.
  - now rewrite (dir_to_device_table w ctl tb Etb).
  - fold (parent_name w (path ctl)).
    destruct (Z.leb_spec PATH_MAX
                (Z.of_nat (String.length (parent_name w (path ctl))))) as [L|L].
    + now rewrite (dir_to_device_overlong w Etb ctl L).
    + now rewrite (dir_to_device_fallback w Etb ctl L).
Qed.

(** X11: with a mount table [dir_to_device] does not read the stat buffer
    (lines 81-93): its calls, its answer and the device it stores are the
    same whatever [ctl.st] holds. *)
Theorem X11_table_decision_ignores_stat (w : world) (tb : libmnt_table)
        (p : string) (s s' : stat_t) :
  proc_mountinfo w = Some tb ->
  mount_decision w p s = mount_decision w p s'.
Proof.
  intros H. unfold mount_decision.
  rewrite !(dir_to_device_table w _ tb H). ctl_simpl.
  destruct (find _ (rev tb)) as [fs|]; [|reflexivity].
  destruct (mnt_fs_get_target fs); reflexivity.
Qed.

Lemma X11_table_decision_ignores_stat_witness :
  mount_decision w_stacked "/mnt" (dir_stat 2065 2) =
  mount_decision w_stacked "/mnt" (dir_stat 1 1).
Proof.
  apply (X11_table_decision_ignores_stat w_stacked tb_stacked "/mnt");
    reflexivity.
Defined.

(** ** What the flags can and cannot change *)

(** X12: on an accepted command line the exit status is a matter of
    --devno, --nofollow and the operands: neither --quiet nor --fs-devno
    has a part in it. *)
Theorem X12_status_ignores_quiet_and_fs_devno (w : world)
        (inv inv' : invocation) :
  flags_only inv = true ->
  flags_only inv' = true ->
  given (chr "x") inv = given (chr "x") inv' ->
  given OPT_NOFOLLOW inv = given OPT_NOFOLLOW inv' ->
  operands inv = operands inv' ->
  exit_status (main w inv) = exit_status (main w inv').
Proof.
  intros F F' Hx Hn Hop.
  rewrite (main_status_flags_only w inv F), (main_status_flags_only w inv' F').
  unfold target_stat.
  destruct (parsed_flags inv) as (_ & _ & En & _).
  destruct (parsed_flags inv') as (_ & _ & En' & _).
  rewrite En, En', Hx, Hn, Hop. reflexivity.
Qed.

Lemma X12_status_ignores_quiet_and_fs_devno_witness :
  exit_status (main w_stacked (mk_inv [chr "q"; chr "d"] ["/mnt"])) =
  exit_status (main w_stacked (mk_inv [] ["/mnt"])).
Proof.
  apply (X12_status_ignores_quiet_and_fs_devno w_stacked
           (mk_inv [chr "q"; chr "d"] ["/mnt"]) (mk_inv [] ["/mnt"]));
    reflexivity.
Defined.

(** X13: --fs-devno has no effect at all when --devno is given: the run is
    the same with and without it. *)
Theorem X13_fs_devno_void_under_devno (w : world) (inv : invocation) :
  flags_only inv = true ->
  given (chr "x") inv = true ->
  main w (with_option (chr "d") inv) = main w inv.
Proof.
  intros F Hx.
  assert (F' : flags_only (with_option (chr "d") inv) = true) by exact F.
  rewrite (main_flags_only w inv F), (main_flags_only w _ F').
  change (operands (with_option (chr "d") inv)) with (operands inv).
  change (given OPT_NOFOLLOW (with_option (chr "d") inv))
    with (given OPT_NOFOLLOW inv).
  change (given (chr "x") (with_option (chr "d") inv))
    with (given (chr "x") inv).
  destruct (operands inv) as [|p [|p' l]]; try reflexivity.
  destruct (given OPT_NOFOLLOW inv && given (chr "x") inv); [reflexivity|].
  rewrite !inspect_eq.
  change (target_stat w (parsed (with_option (chr "d") inv)) p)
    with (target_stat w (parsed inv) p).
  change (target_call (parsed (with_option (chr "d") inv)) p)
    with (target_call (parsed inv) p).
  change (dev_devno (parsed (with_option (chr "d") inv)))
    with (dev_devno (parsed inv)).
  change (quiet (parsed (with_option (chr "d") inv)))
    with (quiet (parsed inv)).
  destruct (parsed_flags inv) as (Ex & _). rewrite Ex, Hx. reflexivity.
Qed.

Lemma X13_fs_devno_void_under_devno_witness :
  main w_stacked (mk_inv [chr "d"; chr "x"] ["/dev/sdb1"]) =
  main w_stacked (mk_inv [chr "x"] ["/dev/sdb1"]).
Proof.
  apply (X13_fs_devno_void_under_devno w_stacked
           (mk_inv [chr "x"] ["/dev/sdb1"])); reflexivity.
Defined.

(** X14: --nofollow matters for symlinks only.  Where lstat and stat of
    the path agree and do not show a symlink, the run with --nofollow
    differs from the run without it in nothing but the name of the first
    call. *)
Theorem X14_nofollow_only_for_symlinks (w : world) (inv : invocation)
        (p : string) :
  flags_only inv = true ->
  given OPT_NOFOLLOW inv = false ->
  given (chr "x") inv = false ->
  operands inv = [p] ->
  sys_lstat w p = sys_stat w p ->
  (forall s, sys_stat w p = StatOk s -> S_ISLNK (st_mode s) = false) ->
  main w (with_option OPT_NOFOLLOW inv) =
  (ev_lstat p :: tl (events (main w inv)), snd (main w inv)).
Proof.
  intros F Hn Hx Hop Hst Hl.
  assert (F' : flags_only (with_option OPT_NOFOLLOW inv) = true) by exact F.
  rewrite (main_flags_only w inv F), (main_flags_only w _ F').
  change (operands (with_option OPT_NOFOLLOW inv)) with (operands inv).
  change (given (chr "x") (with_option OPT_NOFOLLOW inv))
    with (given (chr "x") inv).
  rewrite Hop, Hx, Hn, !andb_false_r. cbn [andb].
  rewrite !inspect_eq. unfold target_stat, target_call.
  change (nofollow (parsed (with_option OPT_NOFOLLOW inv))) with true.
  change (dev_devno (parsed (with_option OPT_NOFOLLOW inv)))
    with (dev_devno (parsed inv)).
  change (fs_devno (parsed (with_option OPT_NOFOLLOW inv)))
    with (fs_devno (parsed inv)).
  change (quiet (parsed (with_option OPT_NOFOLLOW inv)))
    with (quiet (parsed inv)).
  destruct (parsed_flags inv) as (Ex & _ & En & _). rewrite Ex, En, Hx, Hn, Hst.
  unfold events.
  destruct (sys_stat w p) as [s|e] eqn:E.
  - rewrite (Hl s eq_refl). cbn [andb].
    destruct (mount_decision w p s) as [t [d|]]; reflexivity.
  - destruct (quiet (parsed inv)); reflexivity.
Qed.

Lemma X14_nofollow_only_for_symlinks_witness :
  main w_stacked (mk_inv [OPT_NOFOLLOW] ["/mnt"]) =
  ([ev_lstat "/mnt"; ev_mountinfo; ev_resolve "/mnt";
    ev_stdout ("/mnt is a mountpoint" ++ nl)],
   Ret EXIT_SUCCESS).
Proof.
  apply (X14_nofollow_only_for_symlinks w_stacked (mk_inv [] ["/mnt"]) "/mnt");
    try reflexivity.
  intros s H. injection H as <-. reflexivity.
Defined.

(** ** The limit of the fallback *)

(** X15: the fallback is "not able to detect bind mounts" (lines 55-58): a
    mount target on the device of its parent is a mountpoint for the
    mount-table strategy and none for the fallback. *)
Theorem X15_fallback_misses_bind_mounts (w : world) (tb : libmnt_table)
        (ctl : mountpoint_control) :
  is_bind_mount w tb ctl = true ->
  detect_via_table w tb ctl = true /\ detect_via_fallback w ctl = false.
Proof.
  unfold is_bind_mount, same_device_as_parent. intros H.
  apply andb_true_iff in H as [Ht Hs].
  rewrite detect_via_table_eq, detect_via_fallback_eq. split; [exact Ht|].
  destruct (sys_stat w (parent_name w (path ctl))) as [pst|e]; [|reflexivity].
  apply andb_true_iff in Hs as [-> Hi]. cbn.
  now apply negb_true_iff in Hi.
Qed.

Lemma X15_fallback_misses_bind_mounts_witness :
  detect_via_table w_bind tb_bind
    (set_st (set_path ctl_init "/srv/www") (dir_stat 2049 4711)) = true /\
  detect_via_fallback w_bind
    (set_st (set_path ctl_init "/srv/www") (dir_stat 2049 4711)) = false.
Proof.
  apply (X15_fallback_misses_bind_mounts w_bind tb_bind
           (set_st (set_path ctl_init "/srv/www") (dir_stat 2049 4711)));
    reflexivity.
Defined.
